(** * GitHub version notifier: version comparison and update-check policy

    A shallow embedding of [src/github_version_notifier.py]: the version
    comparison of [GitHubVersionChecker._compare_versions], the update check
    of [GitHubVersionChecker.check_for_updates] with its cadence file, the
    notification handler [GitHubVersionNotifier._handle_new_version] and the
    skip list of [VersionNotificationDialog.skip_version].

    Python values are modelled as follows.
    - [str] is [string]: a sequence of code points below 256.
    - [int] is [Z] (Python integers are unbounded).
    - A raised exception is the [Raise] case of [result]; [try]/[except]
      is [try_except] (catches every [Exception]) or [try_except_ValueError].
    - Files, the clock, the releases endpoint, the log and the emitted
      signals are fields of an explicit [World] that every effectful
      method threads through.  The clock shows one instant for the length
      of a call; a file is described by what reading it yields. *)

From Stdlib Require Import ZArith List String Ascii Bool.
Import ListNotations.

Local Open Scope string_scope.
Local Open Scope Z_scope.

(** ** Exceptions *)

Inductive exn : Type :=
| ValueError
| TypeError
| AttributeError
| OverflowError
| OSError.

Inductive result (A : Type) : Type :=
| Ok (a : A)
| Raise (e : exn).

Arguments Ok {A} a.
Arguments Raise {A} e.

(** ** Sequencing

    Pure code that may raise lives in [result]; code that also touches the
    files, the clock, the network or the log lives in [M] (further down).
    Both are sequenced with the same notation. *)

Class Monad (m : Type -> Type) : Type := {
  ret : forall {A}, A -> m A;
  bind : forall {A B}, m A -> (A -> m B) -> m B
}.

Notation "x <- c ;; k" := (bind c (fun x => k))
  (at level 61, c at next level, right associativity).
Notation "c ;; k" := (bind c (fun _ => k))
  (at level 61, right associativity).

#[export] Instance result_monad : Monad result := {
  ret := fun A a => Ok a;
  bind := fun A B m k =>
    match m with
    | Ok a => k a
    | Raise e => Raise e
    end
}.

(** [try: body except ValueError: handler] *)
Definition try_except_ValueError {A} (body : result A) (handler : result A)
  : result A :=
  match body with
  | Ok a => Ok a
  | Raise ValueError => handler
  | Raise e => Raise e
  end.

(** [tuple(map(f, xs))]: the elements are converted left to right and the
    first exception escapes. *)
Fixpoint map_tuple {A B} (f : A -> result B) (xs : list A) : result (list B) :=
  match xs with
  | [] => Ok []
  | x :: xs' =>
      y <- f x ;;
      ys <- map_tuple f xs' ;;
      Ok (y :: ys)
  end.

(** ** Python built-ins used by the comparison *)

Module Py.

Definition code (c : ascii) : N := N_of_ascii c.

(** Characters that [int()] strips around a literal: the ASCII white
    space of [Py_ISSPACE] (TAB, LF, VT, FF, CR, SPACE) and, of the code
    points from 128 to 255, the two that Unicode classes as white space
    (NEL and NBSP), which [int()] first turns into a space. *)
Definition is_space (c : ascii) : bool :=
  let n := code c in
  ((9 <=? n) && (n <=? 13))%N || (n =? 32)%N || (n =? 133)%N || (n =? 160)%N.

(** Decimal value of an ASCII digit.  No code point from 128 to 255 is a
    Unicode decimal digit. *)
Definition digit_val (c : ascii) : option Z :=
  let n := code c in
  if ((48 <=? n) && (n <=? 57))%N then Some (Z.of_N n - 48) else None.

Definition is_underscore (c : ascii) : bool := (code c =? 95)%N.

Fixpoint skip_spaces (l : list ascii) : list ascii :=
  match l with
  | c :: l' => if is_space c then skip_spaces l' else l
  | [] => []
  end.

(** The digit scan of [PyLong_FromString] in base 10: digits with single
    underscores between them.  [prev_us] records that the previous
    character was an underscore; [acc] is the value read so far and [n]
    the number of digits.  [None] is the "invalid literal" exit. *)
Fixpoint scan_digits (prev_us : bool) (acc : Z) (n : nat) (l : list ascii)
  : option (Z * nat * list ascii) :=
  match l with
  | [] => if prev_us then None else Some (acc, n, [])
  | c :: l' =>
      if is_underscore c then
        if prev_us then None else scan_digits true acc n l'
      else
        match digit_val c with
        | Some d => scan_digits false (10 * acc + d) (S n) l'
        | None => if prev_us then None else Some (acc, n, l)
        end
  end.

(** [sys.get_int_max_str_digits()], at its default. *)
Definition int_max_str_digits : nat := 4300.

Definition starts_with_underscore (l : list ascii) : bool :=
  match l with
  | c :: _ => is_underscore c
  | [] => false
  end.

(** An optional sign in front of the digits. *)
Definition strip_sign (l : list ascii) : Z * list ascii :=
  match l with
  | "+"%char :: r => (1, r)
  | "-"%char :: r => (-1, r)
  | _ => (1, l)
  end.

(** The digits and what may follow them. *)
Definition int_digits (sign : Z) (l : list ascii) : result Z :=
  if starts_with_underscore l then Raise ValueError
  else
    match scan_digits false 0 0 l with
    | None => Raise ValueError
    | Some (v, n, rest) =>
        if Nat.ltb int_max_str_digits n then Raise ValueError
        else if Nat.eqb n 0 then Raise ValueError
        else
          match skip_spaces rest with
          | [] => Ok (sign * v)
          | _ :: _ => Raise ValueError
          end
    end.

(** [int(s)] for a [str]: optional white space, optional sign, digits,
    optional white space.  Everything else is [ValueError]. *)
Definition int_chars (l : list ascii) : result Z :=
  let '(sign, digits) := strip_sign (skip_spaces l) in
  int_digits sign digits.

Definition int (s : string) : result Z := int_chars (list_ascii_of_string s).

(** [s.split(sep)] with a one-character separator: never an empty list,
    and [n] separators give [n + 1] pieces. *)
Fixpoint split (sep : ascii) (s : string) : list string :=
  match s with
  | EmptyString => [EmptyString]
  | String c s' =>
      if Ascii.eqb c sep then EmptyString :: split sep s'
      else
        match split sep s' with
        | piece :: pieces => String c piece :: pieces
        | [] => [String c EmptyString]
        end
  end.

(** [s.lstrip(c)] with a one-character set: every leading [c] goes. *)
Fixpoint lstrip (c : ascii) (s : string) : string :=
  match s with
  | String c' s' => if Ascii.eqb c' c then lstrip c s' else s
  | EmptyString => EmptyString
  end.

(** Rich comparison of two tuples of [int]: the first position where they
    differ decides; without one, the shorter tuple is the smaller. *)
Fixpoint tuple_compare (a b : list Z) : comparison :=
  match a, b with
  | [], [] => Eq
  | [], _ :: _ => Lt
  | _ :: _, [] => Gt
  | x :: a', y :: b' =>
      match Z.compare x y with
      | Eq => tuple_compare a' b'
      | c => c
      end
  end.

Definition tuple_lt (a b : list Z) : bool :=
  match tuple_compare a b with Lt => true | _ => false end.

Definition tuple_gt (a b : list Z) : bool :=
  match tuple_compare a b with Gt => true | _ => false end.

(** [a < b] and [a > b] on [str]: ordinal comparison, code point by code
    point, a proper prefix being the smaller. *)
Definition str_lt (a b : string) : bool :=
  match String.compare a b with Lt => true | _ => false end.

Definition str_gt (a b : string) : bool :=
  match String.compare a b with Gt => true | _ => false end.

(** [not s] for a [str]. *)
Definition falsy (s : string) : bool :=
  match s with EmptyString => true | _ => false end.

End Py.

(** ** [_compare_versions] *)

(** The inner [version_tuple]: [tuple(map(int, v.split('.')))]. *)
Definition version_tuple (v : string) : result (list Z) :=
  map_tuple Py.int (Py.split "." v).

(** The [except ValueError] branch. *)
Definition string_fallback (version1 version2 : string) : result Z :=
  if Py.str_lt version1 version2 then Ok (-1)
  else if Py.str_gt version1 version2 then Ok 1
  else Ok 0.

Definition _compare_versions (version1 version2 : string) : result Z :=
  try_except_ValueError
    (v1_tuple <- version_tuple version1 ;;
     v2_tuple <- version_tuple version2 ;;
     if Py.tuple_lt v1_tuple v2_tuple then Ok (-1)
     else if Py.tuple_gt v1_tuple v2_tuple then Ok 1
     else Ok 0)
    (string_fallback version1 version2).

(** ** Data model *)

(** [ReleaseInfo] *)
Record ReleaseInfo : Type := {
  version : string;
  tag_name : string;
  name : string;
  body : string;
  published_at : string;
  download_url : string;
  is_prerelease : bool;
  is_draft : bool
}.

(** [NotificationSettings] *)
Record NotificationSettings : Type := {
  check_interval_hours : Z;
  notify_on_prerelease : bool;
  notify_on_draft : bool;
  auto_download : bool;
  show_changelog : bool;
  github_token : option string;
  repository_owner : string;
  repository_name : string
}.

(** One entry of the releases endpoint's JSON array.  A field is [None]
    when the key is absent; a key that is present holds a value of the type
    [ReleaseInfo] declares for it. *)
Record release_data : Type := {
  rd_tag_name : option string;
  rd_name : option string;
  rd_body : option string;
  rd_published_at : option string;
  rd_html_url : option string;
  rd_prerelease : option bool;
  rd_draft : option bool
}.

(** [d.get(key, default)] *)
Definition get {A} (field : option A) (default : A) : A :=
  match field with
  | Some a => a
  | None => default
  end.

(** A [datetime], in microseconds since 0001-01-01T00:00:00; [Aware]
    carries a UTC offset, [Naive] none. *)
Inductive datetime : Type :=
| Naive (us : Z)
| Aware (us : Z).

(** What [datetime.fromisoformat] makes of a JSON value. *)
Inductive iso_field : Type :=
| NotIso                       (* not a str, or not in ISO format *)
| IsoText (d : datetime).

(** What [last_version_check.json] holds. *)
Inductive last_check_json : Type :=
| LcNotObject                  (* a JSON value without [.get] *)
| LcObject (last_check : option iso_field) (current : option string).

Inductive last_check_content : Type :=
| LcUnreadable                 (* [open] fails or the text is not JSON *)
| LcJson (data : last_check_json).

(** JSON values, as [json.load] returns them.  A number keeps its literal:
    no operation below looks inside one. *)
Local Unset Elimination Schemes.
Inductive json : Type :=
| JNull
| JBool (b : bool)
| JNumber (literal : string)
| JString (s : string)
| JArray (items : list json)
| JObject (members : list (string * json)).
Local Set Elimination Schemes.

(** What [skipped_versions.json] holds. *)
Inductive skip_content : Type :=
| SkUnreadable                 (* [open] fails or the text is not JSON *)
| SkJson (j : json).

(** The answer of the releases endpoint to one GET. *)
Inductive response : Type :=
| FetchFailed (reason : string)        (* a [RequestException], with its text *)
| FetchOk (releases_data : list release_data).

Inductive level : Type := INFO | WARNING | ERROR.

(** The PyQt signals of [GitHubVersionChecker]. *)
Inductive signal : Type :=
| version_found (r : ReleaseInfo)
| check_completed (success : bool) (message : string)
| error_occurred (message : string).

(** What a method leaves behind, in order. *)
Inductive event : Type :=
| Log (lvl : level) (text : string)
| LogExc (lvl : level) (text : string) (e : exn)   (* f"{text}{e}" *)
| HttpGet (url : string) (token : option string)
| Emit (s : signal)
| Print (text : string)
| DialogExec (r : ReleaseInfo)
| DialogAccept.

Record World : Type := {
  PYQT_AVAILABLE : bool;
  now : Z;                                       (* [datetime.now()] *)
  last_check_file : option last_check_content;   (* [None]: no such file *)
  skip_file : option skip_content;               (* [None]: no such file *)
  disk_writable : bool;                          (* [open(path, 'w')] works *)
  github : string -> option string -> response;
  trace : list event
}.

Definition with_trace (w : World) (t : list event) : World :=
  {| PYQT_AVAILABLE := PYQT_AVAILABLE w; now := now w;
     last_check_file := last_check_file w; skip_file := skip_file w;
     disk_writable := disk_writable w; github := github w; trace := t |}.

Definition with_last_check_file (w : World) (c : last_check_content)
  : World :=
  {| PYQT_AVAILABLE := PYQT_AVAILABLE w; now := now w;
     last_check_file := Some c; skip_file := skip_file w;
     disk_writable := disk_writable w; github := github w; trace := trace w |}.

Definition with_skip_file (w : World) (c : skip_content) : World :=
  {| PYQT_AVAILABLE := PYQT_AVAILABLE w; now := now w;
     last_check_file := last_check_file w; skip_file := Some c;
     disk_writable := disk_writable w; github := github w; trace := trace w |}.

(** ** Effects *)

Definition M (A : Type) : Type := World -> result A * World.

#[export] Instance M_monad : Monad M := {
  ret := fun A a w => (Ok a, w);
  bind := fun A B m k w =>
    match m w with
    | (Ok a, w') => k a w'
    | (Raise e, w') => (Raise e, w')
    end
}.

Definition lift {A} (r : result A) : M A := fun w => (r, w).

(** [try: body except Exception as e: handler(e)] *)
Definition try_except {A} (body : M A) (handler : exn -> M A) : M A :=
  fun w =>
    match body w with
    | (Ok a, w') => (Ok a, w')
    | (Raise e, w') => handler e w'
    end.

Definition record (e : event) : M unit :=
  fun w => (Ok tt, with_trace w (trace w ++ [e])).

Definition logger_info (text : string) : M unit := record (Log INFO text).
Definition logger_error (text : string) : M unit := record (Log ERROR text).
Definition logger_warning_exc (text : string) (e : exn) : M unit :=
  record (LogExc WARNING text e).
Definition logger_error_exc (text : string) (e : exn) : M unit :=
  record (LogExc ERROR text e).
Definition emit (s : signal) : M unit := record (Emit s).

Definition pyqt_available : M bool := fun w => (Ok (PYQT_AVAILABLE w), w).
Definition datetime_now : M datetime := fun w => (Ok (Naive (now w)), w).

(** [if PYQT_AVAILABLE: body] *)
Definition if_pyqt (body : M unit) : M unit :=
  b <- pyqt_available ;;
  if b then body else ret tt.

(** ** Dates *)

(** 2000-01-01T00:00:00: day 730120 of the proleptic calendar. *)
Definition datetime_2000_01_01 : datetime :=
  Naive ((730120 - 1) * 86400 * 1000000).

(** [datetime.fromisoformat(v)] *)
Definition fromisoformat (v : iso_field) : result datetime :=
  match v with
  | NotIso => Raise ValueError
  | IsoText d => Ok d
  end.

(** [timedelta(hours=h)], in microseconds; the day count is limited to
    nine digits. *)
Definition timedelta_hours (h : Z) : result Z :=
  if (Z.abs (h / 24) >? 999999999) then Raise OverflowError
  else Ok (h * 3600 * 1000000).

(** [a - b] on two [datetime]s, in microseconds. *)
Definition datetime_sub (a b : datetime) : result Z :=
  match a, b with
  | Naive x, Naive y => Ok (x - y)
  | Aware x, Aware y => Ok (x - y)
  | _, _ => Raise TypeError
  end.

(** ** [GitHubVersionChecker] *)

Record GitHubVersionChecker : Type := {
  settings : NotificationSettings;
  current_version : string
}.

(** The body of the [try] in [_should_check_for_updates], statement by
    statement. *)
Definition read_last_check (self : GitHubVersionChecker)
  (content : last_check_content) : M bool :=
  data <- lift (match content with
                | LcUnreadable => Raise OSError
                | LcJson data => Ok data
                end) ;;
  field <- lift (match data with
                 | LcNotObject => Raise AttributeError
                 | LcObject last_check _ =>
                     Ok (get last_check (IsoText datetime_2000_01_01))
                 end) ;;
  last_check <- lift (fromisoformat field) ;;
  check_interval <-
    lift (timedelta_hours (check_interval_hours (settings self))) ;;
  today <- datetime_now ;;
  elapsed <- lift (datetime_sub today last_check) ;;
  ret (elapsed >? check_interval).

Definition _should_check_for_updates (self : GitHubVersionChecker) : M bool :=
  fun w =>
    match last_check_file w with
    | None => (Ok true, w)
    | Some content =>
        try_except (read_last_check self content)
          (fun e =>
             logger_warning_exc "Error reading last check file: " e ;;
             ret true) w
    end.

(** [open(self.last_check_file, 'w')] followed by [json.dump]. *)
Definition write_last_check (data : last_check_json) : M unit :=
  fun w =>
    if disk_writable w then (Ok tt, with_last_check_file w (LcJson data))
    else (Raise OSError, w).

Definition _update_last_check_time (self : GitHubVersionChecker) : M unit :=
  try_except
    (today <- datetime_now ;;
     write_last_check
       (LcObject (Some (IsoText today)) (Some (current_version self))))
    (fun e => logger_error_exc "Error updating last check time: " e).

(** The [Authorization] header is sent when the token is truthy. *)
Definition authorization (s : NotificationSettings) : option string :=
  match github_token s with
  | Some t => if Py.falsy t then None else Some t
  | None => None
  end.

(** [requests.get(url, headers=headers, timeout=30)] with
    [raise_for_status] and [response.json()]. *)
Definition requests_get (url : string) (token : option string) : M response :=
  fun w => (Ok (github w url token), with_trace w (trace w ++ [HttpGet url token])).

Definition _make_github_request (self : GitHubVersionChecker) (url : string)
  : M (option (list release_data)) :=
  answer <- requests_get url (authorization (settings self)) ;;
  match answer with
  | FetchOk data => ret (Some data)
  | FetchFailed reason =>
      logger_error ("GitHub API request failed: " ++ reason) ;;
      if_pyqt (emit (error_occurred ("Failed to connect to GitHub: " ++ reason))) ;;
      ret None
  end.

Definition _parse_release_info (d : release_data) : ReleaseInfo :=
  {| version := Py.lstrip "v" (get (rd_tag_name d) "");
     tag_name := get (rd_tag_name d) "";
     name := get (rd_name d) "";
     body := get (rd_body d) "";
     published_at := get (rd_published_at d) "";
     download_url := get (rd_html_url d) "";
     is_prerelease := get (rd_prerelease d) false;
     is_draft := get (rd_draft d) false |}.

(** The [for release_data in releases_data] loop of [check_for_updates],
    with the two statements that follow it when it runs to its end. *)
Fixpoint release_loop (self : GitHubVersionChecker)
  (releases_data : list release_data) : M (option ReleaseInfo) :=
  match releases_data with
  | [] =>
      logger_info "No new versions found" ;;
      _update_last_check_time self ;;
      ret None
  | d :: rest =>
      let release_info := _parse_release_info d in
      if is_prerelease release_info
         && negb (notify_on_prerelease (settings self))
      then release_loop self rest
      else if is_draft release_info && negb (notify_on_draft (settings self))
      then release_loop self rest
      else
        c <- lift (_compare_versions (current_version self)
                     (version release_info)) ;;
        if c <? 0 then
          logger_info ("New version found: " ++ version release_info
                       ++ " (current: " ++ current_version self ++ ")") ;;
          _update_last_check_time self ;;
          ret (Some release_info)
        else release_loop self rest
  end.

Definition releases_url (s : NotificationSettings) : string :=
  "https://api.github.com/repos/" ++ repository_owner s ++ "/"
  ++ repository_name s ++ "/releases".

Definition check_for_updates (self : GitHubVersionChecker)
  : M (option ReleaseInfo) :=
  if Py.falsy (repository_owner (settings self))
     || Py.falsy (repository_name (settings self))
  then
    logger_error "Repository owner and name must be configured" ;;
    if_pyqt (emit (error_occurred "Repository configuration missing")) ;;
    ret None
  else
    due <- _should_check_for_updates self ;;
    if negb due then
      logger_info "Skipping update check - too soon since last check" ;;
      ret None
    else
      logger_info ("Checking for updates in "
                   ++ repository_owner (settings self) ++ "/"
                   ++ repository_name (settings self)) ;;
      releases_data <- _make_github_request self (releases_url (settings self)) ;;
      match releases_data with
      | None => ret None
      | Some [] => ret None
      | Some (d :: rest) => release_loop self (d :: rest)
      end.

(** ** The skip list *)

(** [v == j] for a [str] [v] and a JSON value [j]. *)
Definition json_eq_str (v : string) (j : json) : bool :=
  match j with
  | JString s => String.eqb v s
  | _ => false
  end.

(** [v in s] on two [str]: [v] occurs in [s]. *)
Definition substring_of (v s : string) : bool :=
  match String.index 0 v s with
  | Some _ => true
  | None => false
  end.

(** [v in j] for a [str] [v]: membership in a list, among the keys of a
    dict, as a substring of a [str]; nothing else is iterable. *)
Definition py_in (v : string) (j : json) : result bool :=
  match j with
  | JArray items => Ok (existsb (json_eq_str v) items)
  | JObject members => Ok (existsb (String.eqb v) (map fst members))
  | JString s => Ok (substring_of v s)
  | JNull | JBool _ | JNumber _ => Raise TypeError
  end.

(** [j.append(x)]: only a list has it. *)
Definition py_append (j : json) (x : json) : result json :=
  match j with
  | JArray items => Ok (JArray (items ++ [x]))
  | _ => Raise AttributeError
  end.

(** [skipped_versions = []], then the guarded [json.load] of both
    [skip_version] and [_handle_new_version]: an unreadable file leaves
    the empty list. *)
Definition load_skipped_versions : M json :=
  fun w =>
    match skip_file w with
    | None => (Ok (JArray []), w)
    | Some SkUnreadable => (Ok (JArray []), w)
    | Some (SkJson j) => (Ok j, w)
    end.

(** [open(skip_file, 'w')] followed by [json.dump]. *)
Definition write_skipped_versions (j : json) : M unit :=
  fun w =>
    if disk_writable w then (Ok tt, with_skip_file w (SkJson j))
    else (Raise OSError, w).

(** [VersionNotificationDialog.skip_version], for the dialog of [r]. *)
Definition skip_version (r : ReleaseInfo) : M unit :=
  skipped_versions <- load_skipped_versions ;;
  present <- lift (py_in (version r) skipped_versions) ;;
  (if negb present then
     appended <- lift (py_append skipped_versions (JString (version r))) ;;
     try_except (write_skipped_versions appended)
       (fun e => logger_error_exc "Error saving skipped versions: " e)
   else ret tt) ;;
  record DialogAccept.

(** [GitHubVersionNotifier._handle_new_version] *)
Definition _handle_new_version (release_info : ReleaseInfo) : M unit :=
  logger_info ("New version notification: " ++ version release_info) ;;
  gui <- pyqt_available ;;
  if negb gui then
    record (Print ("New version " ++ version release_info ++ " available: "
                   ++ download_url release_info))
  else
    skipped_versions <- load_skipped_versions ;;
    present <- lift (py_in (version release_info) skipped_versions) ;;
    if present then
      logger_info ("Skipping notification for version "
                   ++ version release_info)
    else record (DialogExec release_info).

(** ** The specification's vocabulary *)

(** The three outcomes of a comparison. *)
Definition LESS : Z := -1.
Definition EQUAL : Z := 0.
Definition GREATER : Z := 1.

Definition outcome (c : comparison) : Z :=
  match c with
  | Lt => LESS
  | Eq => EQUAL
  | Gt => GREATER
  end.

(** The filter of the specification's candidate selection: a release is
    skipped when it is a prerelease and prereleases are not notified, or a
    draft and drafts are not notified. *)
Definition skipped (s : NotificationSettings) (r : ReleaseInfo) : bool :=
  (is_prerelease r && negb (notify_on_prerelease s))
  || (is_draft r && negb (notify_on_draft s)).

(** [compare(current, v)] is LESS. *)
Definition newer (current v : string) : bool :=
  match _compare_versions current v with
  | Ok c => c <? 0
  | Raise _ => false
  end.

(** A release the loop returns when it meets it. *)
Definition notifiable (self : GitHubVersionChecker) (r : ReleaseInfo) : bool :=
  negb (skipped (settings self) r) && newer (current_version self) (version r).

(** The record [_update_last_check_time] writes. *)
Definition stamp (self : GitHubVersionChecker) (w : World)
  : last_check_content :=
  LcJson (LcObject (Some (IsoText (Naive (now w))))
            (Some (current_version self))).

(** The world as it would be with another skip list on disk. *)
Definition replace_skip_file (w : World) (f : option skip_content) : World :=
  {| PYQT_AVAILABLE := PYQT_AVAILABLE w; now := now w;
     last_check_file := last_check_file w; skip_file := f;
     disk_writable := disk_writable w; github := github w; trace := trace w |}.

(** A computation that neither reads nor writes the skip list. *)
Definition skip_blind {A} (m : M A) : Prop :=
  forall (f : option skip_content) (w : World),
    m (replace_skip_file w f)
    = (fst (m w), replace_skip_file (snd (m w)) f).

(** The version strings of a stored skip list. *)
Definition version_strings (items : list json) : list string :=
  flat_map (fun j => match j with JString s => [s] | _ => [] end) items.

(** The outcomes of reading the cadence file that count as corrupt: the
    file cannot be read, holds no JSON object, or holds a [last_check]
    that is no ISO timestamp or one with a UTC offset. *)
Definition corrupt (c : last_check_content) : bool :=
  match c with
  | LcUnreadable => true
  | LcJson LcNotObject => true
  | LcJson (LcObject (Some NotIso) _) => true
  | LcJson (LcObject (Some (IsoText (Aware _))) _) => true
  | LcJson (LcObject (Some (IsoText (Naive _))) _) => false
  | LcJson (LcObject None _) => false
  end.

(** The cadence file is a JSON object that lacks [last_check]. *)
Definition missing_timestamp (c : last_check_content) : bool :=
  match c with
  | LcJson (LcObject None _) => true
  | _ => false
  end.

(** More than the check interval has passed since 2000-01-01T00:00:00, or
    the interval is beyond what a [timedelta] holds. *)
Definition interval_passed_since_2000 (self : GitHubVersionChecker)
  (w : World) : bool :=
  match timedelta_hours (check_interval_hours (settings self)) with
  | Ok interval => now w - (730120 - 1) * 86400 * 1000000 >? interval
  | Raise _ => true
  end.

(** ** Sample inputs *)

Definition release (tag : string) (pre draft : bool) : release_data :=
  {| rd_tag_name := Some tag; rd_name := Some ("Release " ++ tag);
     rd_body := Some "Changes"; rd_published_at := Some "2026-10-01T12:00:00Z";
     rd_html_url := Some ("https://github.com/octo/app/releases/tag/" ++ tag);
     rd_prerelease := Some pre; rd_draft := Some draft |}.

Definition stable (tag : string) : release_data := release tag false false.
Definition prerelease (tag : string) : release_data := release tag true false.

Definition sample_settings (owner repo : string) : NotificationSettings :=
  {| check_interval_hours := 24; notify_on_prerelease := false;
     notify_on_draft := false; auto_download := false;
     show_changelog := true; github_token := None;
     repository_owner := owner; repository_name := repo |}.

Definition sample_checker (current : string) : GitHubVersionChecker :=
  {| settings := sample_settings "octo" "app"; current_version := current |}.

(** 2026-11-03T09:00:00, day 739923. *)
Definition sample_now : Z := ((739923 - 1) * 86400 + 9 * 3600) * 1000000.

(** A first run: no cadence file, no skip list, a writable directory. *)
Definition sample_world (gui : bool) (answer : response) : World :=
  {| PYQT_AVAILABLE := gui; now := sample_now; last_check_file := None;
     skip_file := None; disk_writable := true;
     github := fun _ _ => answer; trace := [] |}.

(** A checker whose settings name no repository owner. *)
Definition unconfigured_checker : GitHubVersionChecker :=
  {| settings := sample_settings "" "app"; current_version := "1.0.0" |}.

(** Releases whose first eligible entry is the running version. *)
Definition releases_with_older_first : list release_data :=
  [stable "v1.0.0"; stable "v2.0.0"].

Definition releases_with_prerelease_first : list release_data :=
  [prerelease "v3.0.0"; stable "v1.0.0"; stable "v1.5.0"].

Definition releases_mixed : list release_data :=
  [stable "v1.0.0"; stable "v1.2.0"; stable "v1.3.0"].

(** A cadence file that is a JSON object without [last_check]. *)
Definition record_without_timestamp : last_check_content :=
  LcJson (LcObject None (Some "1.0.0")).

Definition world_with_record (today : Z) (c : last_check_content) : World :=
  {| PYQT_AVAILABLE := false; now := today; last_check_file := Some c;
     skip_file := None; disk_writable := true;
     github := fun _ _ => FetchOk [stable "v1.1.0"]; trace := [] |}.

(** A check interval of 1,000,000 hours. *)
Definition patient_checker : GitHubVersionChecker :=
  {| settings :=
       {| check_interval_hours := 1000000; notify_on_prerelease := false;
          notify_on_draft := false; auto_download := false;
          show_changelog := true; github_token := None;
          repository_owner := "octo"; repository_name := "app" |};
     current_version := "1.0.0" |}.

(** 1970-01-01T00:00:00, day 719163: a clock that was never set. *)
Definition unset_clock : Z := (719163 - 1) * 86400 * 1000000.

(** A world whose skip list already holds [items]. *)
Definition world_with_skip_list (gui : bool) (items : list json)
  (answer : response) : World :=
  {| PYQT_AVAILABLE := gui; now := sample_now; last_check_file := None;
     skip_file := Some (SkJson (JArray items)); disk_writable := true;
     github := fun _ _ => answer; trace := [] |}.

(** ** Vocabulary of the further properties *)

(** Every segment of [v] converts to an integer. *)
Definition parses (v : string) : bool :=
  match version_tuple v with
  | Ok _ => true
  | Raise _ => false
  end.

(** [c * n] for a one-character [str]. *)
Fixpoint replicate (c : ascii) (n : nat) : string :=
  match n with
  | O => EmptyString
  | S n' => String c (replicate c n')
  end.

(** The world when the clock shows [t]. *)
Definition at_time (w : World) (t : Z) : World :=
  {| PYQT_AVAILABLE := PYQT_AVAILABLE w; now := t;
     last_check_file := last_check_file w; skip_file := skip_file w;
     disk_writable := disk_writable w; github := github w; trace := trace w |}.

(** The check is configured and [_should_check_for_updates] lets it go
    ahead. *)
Definition goes_ahead (self : GitHubVersionChecker) (w : World) : bool :=
  negb (Py.falsy (repository_owner (settings self))
        || Py.falsy (repository_name (settings self)))
  && match fst (_should_check_for_updates self w) with
     | Ok due => due
     | Raise _ => false
     end.

Definition is_http (e : event) : bool :=
  match e with
  | HttpGet _ _ => true
  | _ => false
  end.

Definition is_array (j : json) : bool :=
  match j with
  | JArray _ => true
  | _ => false
  end.

(** [w'] differs from [w] in the log and the cadence file at most. *)
Definition same_surroundings (w w' : World) : Prop :=
  PYQT_AVAILABLE w' = PYQT_AVAILABLE w
  /\ now w' = now w
  /\ skip_file w' = skip_file w
  /\ disk_writable w' = disk_writable w
  /\ github w' = github w.

(** A first run with the GUI toolkit in a directory that cannot be
    written. *)
Definition read_only_world : World :=
  {| PYQT_AVAILABLE := true; now := sample_now; last_check_file := None;
     skip_file := None; disk_writable := false;
     github := fun _ _ => FetchOk []; trace := [] |}.

(** ** Further methods

    The methods below read files that [World] does not hold
    ([version.txt], [package.json], the settings file); they take what
    reading the file yields as an argument and, when they write, return
    what the file holds afterwards.  Whether a write succeeds is still the
    [disk_writable] of the world. *)

Inductive text_file : Type :=
| TextUnreadable               (* [read_text] raises *)
| Text (content : string).

Inductive json_file : Type :=
| JsonUnreadable               (* [open] fails or the text is not JSON *)
| JsonDoc (j : json).

Definition read_text (f : text_file) : result string :=
  match f with
  | TextUnreadable => Raise OSError
  | Text content => Ok content
  end.

Definition json_load (f : json_file) : result json :=
  match f with
  | JsonUnreadable => Raise OSError
  | JsonDoc j => Ok j
  end.

(** The value of [key] among the items of a dict (its keys are distinct). *)
Fixpoint dict_lookup (key : string) (members : list (string * json))
  : option json :=
  match members with
  | [] => None
  | (k, v) :: rest => if String.eqb k key then Some v else dict_lookup key rest
  end.

(** [data.get(key, default)] on a JSON value: only a dict has [get]. *)
Definition json_get (data : json) (key : string) (default : json)
  : result json :=
  match data with
  | JObject members => Ok (get (dict_lookup key members) default)
  | _ => Raise AttributeError
  end.

(** [c.isspace()] for a code point below 256: TAB to CR, FS to US, SPACE,
    NEL and NBSP. *)
Definition isspace (c : ascii) : bool :=
  let n := Py.code c in
  ((9 <=? n) && (n <=? 13))%N || ((28 <=? n) && (n <=? 32))%N
  || (n =? 133)%N || (n =? 160)%N.

Fixpoint drop_spaces (l : list ascii) : list ascii :=
  match l with
  | c :: l' => if isspace c then drop_spaces l' else l
  | [] => []
  end.

(** [s.strip()] *)
Definition strip (s : string) : string :=
  string_of_list_ascii
    (rev (drop_spaces (rev (drop_spaces (list_ascii_of_string s))))).

(** [GitHubVersionChecker._get_current_version], given [version.txt] and
    [package.json] ([None]: no such file).  The value comes back as Python
    holds it: the [version] of [package.json] can be any JSON value. *)
Definition _get_current_version (version_txt : option text_file)
  (package_json : option json_file) : M json :=
  try_except
    match version_txt with
    | Some f =>
        text <- lift (read_text f) ;;
        ret (JString (strip text))
    | None =>
        match package_json with
        | Some f =>
            data <- lift (json_load f) ;;
            lift (json_get data "version" (JString "1.0.0"))
        | None => ret (JString "1.0.0")
        end
    end
    (fun e =>
       logger_warning_exc "Could not determine current version: " e ;;
       ret (JString "1.0.0")).

Section Thread.

(** [str(e)] for an exception. *)
Variable str : exn -> string.

(** [GitHubVersionChecker.run], the body of the checker thread. *)
Definition run (self : GitHubVersionChecker) : M unit :=
  gui <- pyqt_available ;;
  if negb gui then ret tt
  else
    try_except
      (release_info <- check_for_updates self ;;
       match release_info with
       | Some r =>
           emit (version_found r) ;;
           emit (check_completed true
                   ("New version " ++ version r ++ " available"))
       | None => emit (check_completed true "No updates available")
       end)
      (fun e =>
         logger_error_exc "Error in version check thread: " e ;;
         emit (error_occurred (str e)) ;;
         emit (check_completed false (str e))).

End Thread.

(** A [NotificationSettings] instance as Python holds it: the dataclass
    checks no types, so every attribute is a JSON value. *)
Record RawSettings : Type := {
  raw_check_interval_hours : json;
  raw_notify_on_prerelease : json;
  raw_notify_on_draft : json;
  raw_auto_download : json;
  raw_show_changelog : json;
  raw_github_token : json;
  raw_repository_owner : json;
  raw_repository_name : json
}.

Definition field_names : list string :=
  ["check_interval_hours"; "notify_on_prerelease"; "notify_on_draft";
   "auto_download"; "show_changelog"; "github_token"; "repository_owner";
   "repository_name"].

Definition is_field (key : string) : bool :=
  existsb (String.eqb key) field_names.

(** [NotificationSettings] called with the items of [data] as keyword
    arguments: [data] must be a mapping, every key a field; a field
    without a key takes the default of the dataclass. *)
Definition NotificationSettings_from (data : json) : result RawSettings :=
  match data with
  | JObject members =>
      if forallb (fun kv => is_field (fst kv)) members then
        Ok {| raw_check_interval_hours :=
                get (dict_lookup "check_interval_hours" members) (JNumber "24");
              raw_notify_on_prerelease :=
                get (dict_lookup "notify_on_prerelease" members) (JBool false);
              raw_notify_on_draft :=
                get (dict_lookup "notify_on_draft" members) (JBool false);
              raw_auto_download :=
                get (dict_lookup "auto_download" members) (JBool false);
              raw_show_changelog :=
                get (dict_lookup "show_changelog" members) (JBool true);
              raw_github_token :=
                get (dict_lookup "github_token" members) JNull;
              raw_repository_owner :=
                get (dict_lookup "repository_owner" members) (JString "");
              raw_repository_name :=
                get (dict_lookup "repository_name" members) (JString "") |}
      else Raise TypeError
  | _ => Raise TypeError
  end.

Definition create_default_settings : RawSettings :=
  {| raw_check_interval_hours := JNumber "24";
     raw_notify_on_prerelease := JBool false;
     raw_notify_on_draft := JBool false;
     raw_auto_download := JBool false;
     raw_show_changelog := JBool true;
     raw_github_token := JNull;
     raw_repository_owner := JString "your-username";
     raw_repository_name := JString "your-repo" |}.

(** [load_settings_from_file], given the settings file. *)
Definition load_settings_from_file (file : option json_file) : M RawSettings :=
  loaded <-
    try_except
      match file with
      | Some f =>
          data <- lift (json_load f) ;;
          loaded <- lift (NotificationSettings_from data) ;;
          ret (Some loaded)
      | None => ret None
      end
      (fun e => logger_error_exc "Error loading settings: " e ;; ret None) ;;
  match loaded with
  | Some loaded => ret loaded
  | None => ret create_default_settings
  end.

(** The dict that [save_settings_to_file] dumps. *)
Definition settings_document (s : RawSettings) : json :=
  JObject
    [("check_interval_hours", raw_check_interval_hours s);
     ("notify_on_prerelease", raw_notify_on_prerelease s);
     ("notify_on_draft", raw_notify_on_draft s);
     ("auto_download", raw_auto_download s);
     ("show_changelog", raw_show_changelog s);
     ("github_token", raw_github_token s);
     ("repository_owner", raw_repository_owner s);
     ("repository_name", raw_repository_name s)].

(** [save_settings_to_file]: returns what the settings file holds
    afterwards. *)
Definition save_settings_to_file (s : RawSettings) (file : option json_file)
  : M (option json_file) :=
  try_except
    (fun w =>
       if disk_writable w
       then (Ok (Some (JsonDoc (settings_document s))), w)
       else (Raise OSError, w))
    (fun e => logger_error_exc "Error saving settings: " e ;; ret file).

Section Integration.

(** [str(e)] for an exception, and whether the number with a given JSON
    literal is zero (it may be a float). *)
Variable str : exn -> string.
Variable number_is_zero : string -> bool.

(** [not v] *)
Definition json_falsy (v : json) : bool :=
  match v with
  | JNull => true
  | JBool b => negb b
  | JNumber literal => number_is_zero literal
  | JString s => Py.falsy s
  | JArray items => match items with [] => true | _ => false end
  | JObject members => match members with [] => true | _ => false end
  end.

Definition set_repository (s : RawSettings) (owner repo : json)
  : RawSettings :=
  {| raw_check_interval_hours := raw_check_interval_hours s;
     raw_notify_on_prerelease := raw_notify_on_prerelease s;
     raw_notify_on_draft := raw_notify_on_draft s;
     raw_auto_download := raw_auto_download s;
     raw_show_changelog := raw_show_changelog s;
     raw_github_token := raw_github_token s;
     raw_repository_owner := owner;
     raw_repository_name := repo |}.

(** [CDPVersionNotifierIntegration._load_settings], given whether the
    [config] directory exists and the settings file in it; returns the
    [self.settings] it leaves. *)
Definition _load_settings (config_dir_exists : bool)
  (file : option json_file) : M RawSettings :=
  try_except
    (loaded <-
       (if config_dir_exists then load_settings_from_file file
        else ret create_default_settings) ;;
     if json_falsy (raw_repository_owner loaded)
        || json_eq_str "your-username" (raw_repository_owner loaded)
     then ret (set_repository loaded (JString "candor-cdp")
                 (JString "candor-coding-platform"))
     else ret loaded)
    (fun e =>
       record (Print ("Error loading version notifier settings: " ++ str e)) ;;
       ret create_default_settings).

End Integration.

(** * Properties *)

(** ** Version comparison *)

Section Comparison.

Lemma int_digits_raises (sign : Z) (l : list ascii) (e : exn) :
  Py.int_digits sign l = Raise e -> e = ValueError.
Proof.
  unfold Py.int_digits.
  destruct (Py.starts_with_underscore l); [congruence|].
  destruct (Py.scan_digits false 0 0 l) as [[[v n] rest]|]; [|congruence].
  destruct (Nat.ltb Py.int_max_str_digits n); [congruence|].
  destruct (Nat.eqb n 0); [congruence|].
  destruct (Py.skip_spaces rest); congruence.
Qed.

Lemma int_raises (s : string) (e : exn) :
  Py.int s = Raise e -> e = ValueError.
Proof.
  unfold Py.int, Py.int_chars.
  destruct (Py.strip_sign _) as [sign digits].
  apply int_digits_raises.
Qed.

Lemma map_tuple_int_raises (pieces : list string) (e : exn) :
  map_tuple Py.int pieces = Raise e -> e = ValueError.
Proof.
  induction pieces as [|p pieces IH]; simpl; [congruence|].
  destruct (Py.int p) eqn:Hp.
  - destruct (map_tuple Py.int pieces); [congruence|].
    intros H. injection H as <-. now apply IH.
  - intros H. injection H as <-. now apply int_raises in Hp.
Qed.

(** [version_tuple] raises nothing but [ValueError]. *)
Lemma version_tuple_raises (v : string) (e : exn) :
  version_tuple v = Raise e -> e = ValueError.
Proof. apply map_tuple_int_raises. Qed.

Lemma tuple_compare_antisym (a b : list Z) :
  Py.tuple_compare a b = CompOpp (Py.tuple_compare b a).
Proof.
  revert b. induction a as [|x a IH]; intros [|y b]; simpl; trivial.
  rewrite (Z.compare_antisym y x).
  destruct (y ?= x); simpl; auto.
Qed.

Lemma tuple_compare_prefix (a rest : list Z) :
  rest <> [] -> Py.tuple_compare a (a ++ rest) = Lt.
Proof.
  intros Hrest. induction a as [|x a IH]; simpl.
  - destruct rest; congruence.
  - now rewrite Z.compare_refl.
Qed.

(** With both tuples at hand, the [try] body is the tuple comparison. *)
Lemma compare_numeric_mode (a b : string) (ta tb : list Z) :
  version_tuple a = Ok ta -> version_tuple b = Ok tb ->
  _compare_versions a b = Ok (outcome (Py.tuple_compare ta tb)).
Proof.
  intros Ha Hb. unfold _compare_versions. rewrite Ha, Hb. simpl.
  unfold Py.tuple_lt, Py.tuple_gt.
  now destruct (Py.tuple_compare ta tb).
Qed.

Lemma string_fallback_outcome (a b : string) :
  string_fallback a b = Ok (outcome (String.compare a b)).
Proof.
  unfold string_fallback, Py.str_lt, Py.str_gt.
  now destruct (String.compare a b).
Qed.

(** When either conversion raises, the [except] branch answers. *)
Lemma compare_fallback_mode (a b : string) :
  (exists e, version_tuple a = Raise e)
  \/ (exists e, version_tuple b = Raise e) ->
  _compare_versions a b = Ok (outcome (String.compare a b)).
Proof.
  intros H. rewrite <- string_fallback_outcome. unfold _compare_versions.
  destruct (version_tuple a) as [ta|ea] eqn:Ha.
  - destruct H as [[e He]|[e He]]; [discriminate|].
    rewrite He. simpl. now rewrite (version_tuple_raises _ _ He).
  - simpl. now rewrite (version_tuple_raises _ _ Ha).
Qed.

(** The closed form of [_compare_versions]. *)
Lemma compare_closed_form (a b : string) :
  _compare_versions a b =
    match version_tuple a, version_tuple b with
    | Ok ta, Ok tb => Ok (outcome (Py.tuple_compare ta tb))
    | _, _ => Ok (outcome (String.compare a b))
    end.
Proof.
  destruct (version_tuple a) as [ta|ea] eqn:Ha.
  - destruct (version_tuple b) as [tb|eb] eqn:Hb.
    + now apply compare_numeric_mode.
    + apply compare_fallback_mode. right. now exists eb.
  - apply compare_fallback_mode. left. now exists ea.
Qed.

Lemma compare_returns (a b : string) :
  exists c : comparison, _compare_versions a b = Ok (outcome c).
Proof.
  rewrite compare_closed_form.
  destruct (version_tuple a); [destruct (version_tuple b)|]; eauto.
Qed.

End Comparison.

(** C8.  [_compare_versions] is total on pairs of strings: it raises
    nothing and returns LESS, EQUAL or GREATER; it compares the integer
    tuples when both strings convert, and the raw strings, ordinally, as
    soon as the conversion of either one fails. *)
Theorem compare_versions_total (a b : string) :
  (exists n : Z,
      _compare_versions a b = Ok n /\ (n = LESS \/ n = EQUAL \/ n = GREATER))
  /\ _compare_versions a b =
       match version_tuple a, version_tuple b with
       | Ok ta, Ok tb => Ok (outcome (Py.tuple_compare ta tb))
       | _, _ => Ok (outcome (String.compare a b))
       end.
Proof.
  split; [|apply compare_closed_form].
  destruct (compare_returns a b) as [c Hc].
  exists (outcome c). split; [exact Hc|].
  destruct c; simpl; auto.
Qed.

(** C7.  [_compare_versions] is antisymmetric on every pair of strings,
    whichever of the two modes applies: [compare(a, b)] is GREATER exactly
    when [compare(b, a)] is LESS. *)
Theorem compare_versions_antisymmetric (a b : string) :
  _compare_versions a b = Ok GREATER <-> _compare_versions b a = Ok LESS.
Proof.
  rewrite (compare_closed_form a b), (compare_closed_form b a).
  destruct (version_tuple a) as [ta|ea], (version_tuple b) as [tb|eb];
    try rewrite (tuple_compare_antisym ta tb);
    try rewrite (String.compare_antisym a b);
    match goal with
    | |- context [CompOpp ?c] => destruct c
    end;
    unfold outcome, LESS, EQUAL, GREATER; simpl;
    split; intros H; (reflexivity || discriminate H).
Qed.

(** The claim C1 fails on its own example: the shorter version is not
    EQUAL to the longer one. *)
Lemma compare_1_2_with_1_2_0_is_not_equal :
  _compare_versions "1.2" "1.2.0" <> Ok EQUAL.
Proof. vm_compute. discriminate. Qed.

(** C1, amended.  When all segments of both versions convert to integers,
    the integer tuples are compared without padding: a version that is a
    proper prefix of the other, segment by segment, is LESS than the longer
    one (and the longer one GREATER), also when the extra segments are 0. *)
Theorem compare_shorter_version_is_less (a b : string) (ta rest : list Z) :
  version_tuple a = Ok ta ->
  version_tuple b = Ok (ta ++ rest)%list ->
  rest <> [] ->
  _compare_versions a b = Ok LESS /\ _compare_versions b a = Ok GREATER.
Proof.
  intros Ha Hb Hrest.
  rewrite (compare_numeric_mode a b _ _ Ha Hb).
  rewrite (compare_numeric_mode b a _ _ Hb Ha).
  rewrite (tuple_compare_antisym (ta ++ rest) ta).
  now rewrite (tuple_compare_prefix ta rest Hrest).
Qed.

Lemma compare_shorter_version_is_less_witness :
  _compare_versions "1.2" "1.2.0" = Ok LESS
  /\ _compare_versions "1.2.0" "1.2" = Ok GREATER.
Proof.
  apply (compare_shorter_version_is_less "1.2" "1.2.0" [1; 2] [0]).
  - reflexivity.
  - reflexivity.
  - discriminate.
Defined.

(** The comparisons of the specification's examples, and the built-ins
    on their edge cases. *)
Example compare_numeric : _compare_versions "1.2.3" "1.2.10" = Ok LESS.
Proof. reflexivity. Qed.

Example compare_same : _compare_versions "1.1.0" "1.1.0" = Ok EQUAL.
Proof. reflexivity. Qed.

Example compare_fallback : _compare_versions "abc" "1.0" = Ok GREATER.
Proof. reflexivity. Qed.

Example compare_string_order : _compare_versions "1.10-rc" "1.9" = Ok LESS.
Proof. reflexivity. Qed.

Example int_examples :
  Py.int " 12 " = Ok 12 /\ Py.int "1_000" = Ok 1000 /\ Py.int "-7" = Ok (-7)
  /\ Py.int "" = Raise ValueError /\ Py.int "1__0" = Raise ValueError
  /\ Py.int "_1" = Raise ValueError /\ Py.int "1_" = Raise ValueError
  /\ Py.int "- 1" = Raise ValueError /\ Py.int "1 2" = Raise ValueError.
Proof. repeat split; reflexivity. Qed.

Example split_examples :
  Py.split "." "" = [""] /\ Py.split "." "1..2" = ["1"; ""; "2"]
  /\ Py.split "." "." = [""; ""].
Proof. repeat split; reflexivity. Qed.

(** ** The update check *)

Section UpdateCheck.

Variable self : GitHubVersionChecker.

Lemma with_trace_same (w : World) : with_trace w (trace w) = w.
Proof. now destruct w. Qed.

(** [_update_last_check_time] raises nothing: it writes the stamp, or logs
    the failed write. *)
Lemma update_last_check_time_closed_form (w : World) :
  _update_last_check_time self w =
    if disk_writable w
    then (Ok tt, with_last_check_file w (stamp self w))
    else (Ok tt,
          with_trace w
            (trace w
             ++ [LogExc ERROR "Error updating last check time: " OSError])).
Proof.
  unfold _update_last_check_time, try_except, write_last_check. simpl.
  now destruct (disk_writable w).
Qed.

Lemma update_last_check_time_returns (w : World) :
  fst (_update_last_check_time self w) = Ok tt.
Proof.
  rewrite update_last_check_time_closed_form.
  now destruct (disk_writable w).
Qed.

(** The two [continue] tests of the loop are the filter [skipped]. *)
Lemma release_loop_cons (d : release_data) (rest : list release_data)
  (w : World) :
  release_loop self (d :: rest) w =
    if notifiable self (_parse_release_info d)
    then
      (logger_info
         ("New version found: " ++ version (_parse_release_info d)
          ++ " (current: " ++ current_version self ++ ")") ;;
       _update_last_check_time self ;;
       ret (Some (_parse_release_info d))) w
    else release_loop self rest w.
Proof.
  cbn [release_loop]. cbv zeta.
  generalize (_parse_release_info d). intros r.
  unfold notifiable, skipped, newer.
  destruct (is_prerelease r && negb (notify_on_prerelease (settings self)));
    simpl; trivial.
  destruct (is_draft r && negb (notify_on_draft (settings self)));
    simpl; trivial.
  unfold lift.
  destruct (compare_returns (current_version self) (version r)) as [c ->].
  now destruct (outcome c <? 0).
Qed.

Lemma release_loop_result (l : list release_data) (w : World) :
  fst (release_loop self l w) =
    Ok (find (notifiable self) (map _parse_release_info l)).
Proof.
  induction l as [|d rest IH].
  - simpl. unfold logger_info, record. simpl.
    rewrite update_last_check_time_closed_form. simpl.
    now destruct (disk_writable w).
  - rewrite release_loop_cons. simpl find.
    destruct (notifiable self (_parse_release_info d)); [|exact IH].
    simpl. unfold logger_info, record. simpl.
    rewrite update_last_check_time_closed_form. simpl.
    now destruct (disk_writable w).
Qed.

(** Whatever the loop decides, it ends by writing the stamp. *)
Lemma release_loop_stamps (l : list release_data) (w : World) :
  disk_writable w = true ->
  last_check_file (snd (release_loop self l w)) = Some (stamp self w).
Proof.
  intros Hw. induction l as [|d rest IH].
  - simpl. unfold logger_info, record. simpl.
    rewrite update_last_check_time_closed_form. simpl. now rewrite Hw.
  - rewrite release_loop_cons.
    destruct (notifiable self (_parse_release_info d)); [|exact IH].
    simpl. unfold logger_info, record. simpl.
    rewrite update_last_check_time_closed_form. simpl. now rewrite Hw.
Qed.

Lemma find_notifiable_filter (rs : list ReleaseInfo) :
  find (notifiable self) rs =
    find (fun r => newer (current_version self) (version r))
      (filter (fun r => negb (skipped (settings self) r)) rs).
Proof.
  induction rs as [|r rs IH]; simpl; trivial.
  unfold notifiable at 1.
  destruct (skipped (settings self) r); simpl; trivial.
  now destruct (newer (current_version self) (version r)).
Qed.

(** [_should_check_for_updates] raises nothing and touches the log only. *)
Lemma should_check_shape (w : World) :
  exists (due : bool) (t : list event),
    _should_check_for_updates self w = (Ok due, with_trace w t).
Proof.
  unfold _should_check_for_updates.
  destruct (last_check_file w) as [content|].
  2:{ exists true, (trace w). now rewrite with_trace_same. }
  unfold try_except, read_last_check. simpl. unfold lift.
  destruct content as [|[|[[|[us|us]]|] cur]]; simpl;
    try destruct (timedelta_hours (check_interval_hours (settings self)));
    simpl;
    first [ eexists; eexists; reflexivity
          | eexists; exists (trace w); rewrite with_trace_same;
            reflexivity ].
Qed.

End UpdateCheck.

(** C6, amended.  The loop scans the releases in order and passes over a
    release exactly when it is a prerelease and prereleases are not
    notified, or a draft and drafts are not notified; of the releases not
    passed over it returns the first whose version is newer than the
    current one.  It returns nothing when the list is empty, when every
    release is filtered out, or when no release left is newer. *)
Theorem release_loop_filters_then_compares
  (self : GitHubVersionChecker) (l : list release_data) (w : World) :
  fst (release_loop self l w) =
    Ok (find (fun r => newer (current_version self) (version r))
          (filter (fun r => negb (skipped (settings self) r))
             (map _parse_release_info l))).
Proof.
  rewrite release_loop_result. f_equal. apply find_notifiable_filter.
Qed.

(** The example of C6, for a current version older than the stable
    release: the newer prerelease is passed over. *)
Example release_loop_passes_over_prerelease :
  fst (release_loop (sample_checker "0.9.0")
         [prerelease "v2.0.0"; stable "v1.0.0"]
         (sample_world false (FetchOk [])))
  = Ok (Some (_parse_release_info (stable "v1.0.0"))).
Proof. reflexivity. Qed.

(** The claim C6 fails where the first release not filtered out is not
    newer than the current version: the loop returns a later one. *)
Lemma release_loop_returns_later_release :
  find (fun r => negb (skipped (settings (sample_checker "1.0.0")) r))
    (map _parse_release_info releases_with_prerelease_first)
  = Some (_parse_release_info (stable "v1.0.0"))
  /\ fst (release_loop (sample_checker "1.0.0") releases_with_prerelease_first
            (sample_world false (FetchOk releases_with_prerelease_first)))
     = Ok (Some (_parse_release_info (stable "v1.5.0")))
  /\ _parse_release_info (stable "v1.5.0")
     <> _parse_release_info (stable "v1.0.0").
Proof. repeat split. discriminate. Qed.

(** The claim C2 fails: the first eligible release is not newer than the
    current version, and yet a later release is returned. *)
Lemma check_for_updates_returns_later_release :
  find (fun r => negb (skipped (settings (sample_checker "1.0.0")) r))
    (map _parse_release_info releases_with_older_first)
  = Some (_parse_release_info (stable "v1.0.0"))
  /\ _compare_versions (current_version (sample_checker "1.0.0")) "1.0.0"
     = Ok EQUAL
  /\ fst (check_for_updates (sample_checker "1.0.0")
            (sample_world false (FetchOk releases_with_older_first)))
     = Ok (Some (_parse_release_info (stable "v2.0.0"))).
Proof. repeat split. Qed.

(** C2, amended.  In a check that is configured, due and served with the
    list [l], the release that decides is the first one in list order that
    is eligible and for which [compare(current, version)] is LESS: an
    eligible release that is not newer is passed over and the scan goes on.
    The check returns no update exactly when no release of the list is both
    eligible and newer. *)
Theorem check_for_updates_returns_first_newer
  (self : GitHubVersionChecker) (w : World) (l : list release_data) :
  Py.falsy (repository_owner (settings self)) = false ->
  Py.falsy (repository_name (settings self)) = false ->
  fst (_should_check_for_updates self w) = Ok true ->
  github w (releases_url (settings self)) (authorization (settings self))
  = FetchOk l ->
  fst (check_for_updates self w)
  = Ok (find (notifiable self) (map _parse_release_info l))
  /\ (fst (check_for_updates self w) = Ok None
      <-> forall r, In r (map _parse_release_info l) ->
                    notifiable self r = false).
Proof.
  intros Howner Hrepo Hdue Hfetch.
  assert (Hres : fst (check_for_updates self w)
                 = Ok (find (notifiable self) (map _parse_release_info l))).
  { unfold check_for_updates. rewrite Howner, Hrepo. cbn [orb].
    destruct (should_check_shape self w) as [due [t Hs]].
    rewrite Hs in Hdue. cbn [fst] in Hdue. injection Hdue as ->.
    cbn [bind M_monad]. rewrite Hs. cbn [negb].
    unfold logger_info at 1. unfold record at 1.
    unfold _make_github_request. cbn [bind M_monad].
    unfold requests_get. cbn [github with_trace trace].
    rewrite Hfetch. cbn [ret M_monad].
    destruct l as [|d rest]; [reflexivity|].
    apply release_loop_result. }
  split; [exact Hres|].
  rewrite Hres. split.
  - intros H. injection H as H. apply (find_none _ _ H).
  - intros H. f_equal.
    destruct (find (notifiable self) (map _parse_release_info l)) as [r|] eqn:E;
      [|reflexivity].
    apply find_some in E. destruct E as [Hin Hr].
    rewrite (H r Hin) in Hr. discriminate.
Qed.

Lemma check_for_updates_returns_first_newer_witness :
  fst (check_for_updates (sample_checker "1.1.0")
         (sample_world true (FetchOk releases_mixed)))
  = Ok (find (notifiable (sample_checker "1.1.0"))
          (map _parse_release_info releases_mixed))
  /\ (fst (check_for_updates (sample_checker "1.1.0")
            (sample_world true (FetchOk releases_mixed))) = Ok None
      <-> forall r, In r (map _parse_release_info releases_mixed) ->
                    notifiable (sample_checker "1.1.0") r = false).
Proof.
  apply (check_for_updates_returns_first_newer (sample_checker "1.1.0")
           (sample_world true (FetchOk releases_mixed)) releases_mixed);
    reflexivity.
Defined.

(** ** Configuration, cadence and transport *)

Section Cadence.

Variable self : GitHubVersionChecker.

(** What is left of [check_for_updates] once the configuration is there
    and the check is due. *)
Lemma check_for_updates_due (w : World) (t : list event) :
  Py.falsy (repository_owner (settings self)) = false ->
  Py.falsy (repository_name (settings self)) = false ->
  _should_check_for_updates self w = (Ok true, with_trace w t) ->
  check_for_updates self w =
    match github w (releases_url (settings self))
            (authorization (settings self)) with
    | FetchOk (d :: rest) =>
        release_loop self (d :: rest)
          (with_trace w
             (t ++ [Log INFO ("Checking for updates in "
                              ++ repository_owner (settings self) ++ "/"
                              ++ repository_name (settings self));
                    HttpGet (releases_url (settings self))
                      (authorization (settings self))]))
    | FetchOk [] =>
        (Ok None,
         with_trace w
           (t ++ [Log INFO ("Checking for updates in "
                            ++ repository_owner (settings self) ++ "/"
                            ++ repository_name (settings self));
                  HttpGet (releases_url (settings self))
                    (authorization (settings self))]))
    | FetchFailed reason =>
        (Ok None,
         with_trace w
           (t ++ [Log INFO ("Checking for updates in "
                            ++ repository_owner (settings self) ++ "/"
                            ++ repository_name (settings self));
                  HttpGet (releases_url (settings self))
                    (authorization (settings self));
                  Log ERROR ("GitHub API request failed: " ++ reason)]
              ++ if PYQT_AVAILABLE w
                 then [Emit (error_occurred
                               ("Failed to connect to GitHub: " ++ reason))]
                 else []))
    end.
Proof.
  intros Howner Hrepo Hs.
  unfold check_for_updates. rewrite Howner, Hrepo. cbn [orb].
  cbn [bind M_monad]. rewrite Hs. cbn [negb].
  unfold logger_info at 1. unfold record at 1.
  unfold _make_github_request. cbn [bind M_monad].
  unfold requests_get. cbn [github with_trace trace].
  destruct (github w _ _) as [reason|[|d rest]].
  - unfold logger_error, if_pyqt, pyqt_available, emit, record.
    cbn [bind ret M_monad PYQT_AVAILABLE with_trace trace].
    destruct (PYQT_AVAILABLE w);
      cbn [bind ret M_monad PYQT_AVAILABLE with_trace trace];
      repeat rewrite <- app_assoc; reflexivity.
  - cbn [ret M_monad]. now rewrite <- app_assoc.
  - cbn [ret M_monad]. now rewrite <- app_assoc.
Qed.

(** A check that examined at least one release ends with the stamp
    written, whatever it decided. *)
Lemma completed_check_stamps (w : World) (d : release_data)
  (rest : list release_data) :
  Py.falsy (repository_owner (settings self)) = false ->
  Py.falsy (repository_name (settings self)) = false ->
  fst (_should_check_for_updates self w) = Ok true ->
  github w (releases_url (settings self)) (authorization (settings self))
  = FetchOk (d :: rest) ->
  disk_writable w = true ->
  last_check_file (snd (check_for_updates self w)) = Some (stamp self w).
Proof.
  intros Howner Hrepo Hdue Hfetch Hw.
  destruct (should_check_shape self w) as [due [t Hs]].
  rewrite Hs in Hdue. cbn [fst] in Hdue. injection Hdue as ->.
  rewrite (check_for_updates_due w t Howner Hrepo Hs), Hfetch.
  now rewrite release_loop_stamps.
Qed.

(** A failed fetch leaves the cadence file as it was. *)
Lemma failed_fetch_keeps_timestamp (w : World) (reason : string) :
  Py.falsy (repository_owner (settings self)) = false ->
  Py.falsy (repository_name (settings self)) = false ->
  fst (_should_check_for_updates self w) = Ok true ->
  github w (releases_url (settings self)) (authorization (settings self))
  = FetchFailed reason ->
  fst (check_for_updates self w) = Ok None
  /\ last_check_file (snd (check_for_updates self w)) = last_check_file w.
Proof.
  intros Howner Hrepo Hdue Hfetch.
  destruct (should_check_shape self w) as [due [t Hs]].
  rewrite Hs in Hdue. cbn [fst] in Hdue. injection Hdue as ->.
  rewrite (check_for_updates_due w t Howner Hrepo Hs), Hfetch.
  now split.
Qed.

End Cadence.

(** C5, where the code departs from it.  A check that is configured, due
    and served with an empty release list returns no update and leaves the
    cadence file as it was: the completed check is not recorded. *)
Theorem empty_release_list_is_not_recorded
  (self : GitHubVersionChecker) (w : World) :
  Py.falsy (repository_owner (settings self)) = false ->
  Py.falsy (repository_name (settings self)) = false ->
  fst (_should_check_for_updates self w) = Ok true ->
  github w (releases_url (settings self)) (authorization (settings self))
  = FetchOk [] ->
  fst (check_for_updates self w) = Ok None
  /\ last_check_file (snd (check_for_updates self w)) = last_check_file w.
Proof.
  intros Howner Hrepo Hdue Hfetch.
  destruct (should_check_shape self w) as [due [t Hs]].
  rewrite Hs in Hdue. cbn [fst] in Hdue. injection Hdue as ->.
  rewrite (check_for_updates_due self w t Howner Hrepo Hs), Hfetch.
  now split.
Qed.

Lemma empty_release_list_is_not_recorded_witness :
  fst (check_for_updates (sample_checker "1.0.0")
         (sample_world false (FetchOk [])))
  = Ok None
  /\ last_check_file
       (snd (check_for_updates (sample_checker "1.0.0")
               (sample_world false (FetchOk []))))
     = last_check_file (sample_world false (FetchOk [])).
Proof.
  apply (empty_release_list_is_not_recorded (sample_checker "1.0.0")
           (sample_world false (FetchOk [])));
    reflexivity.
Defined.

(** The sibling path: the same check served with releases that are all
    filtered out records the check. *)
Example filtered_out_list_is_recorded :
  fst (check_for_updates (sample_checker "1.0.0")
         (sample_world false (FetchOk [prerelease "v2.0.0"])))
  = Ok None
  /\ last_check_file
       (snd (check_for_updates (sample_checker "1.0.0")
               (sample_world false (FetchOk [prerelease "v2.0.0"]))))
     = Some (stamp (sample_checker "1.0.0")
               (sample_world false (FetchOk [prerelease "v2.0.0"]))).
Proof. split; reflexivity. Qed.

(** The claim C4 fails: without a repository owner the check raises
    nothing and returns [None], the value it also returns when there is no
    update and when the fetch fails. *)
Lemma missing_repository_returns_none_like_no_update :
  fst (check_for_updates unconfigured_checker
         (sample_world false (FetchOk [stable "v1.1.0"])))
  = Ok None
  /\ fst (check_for_updates (sample_checker "1.1.0")
            (sample_world false (FetchOk [stable "v1.1.0"])))
     = Ok None
  /\ fst (check_for_updates (sample_checker "1.1.0")
            (sample_world false (FetchFailed "connection refused")))
     = Ok None.
Proof. repeat split. Qed.

(** C4, amended.  With an empty repository owner or an empty repository
    name, [check_for_updates] raises nothing and returns [None]; it logs
    the error and, with the GUI toolkit, emits [error_occurred] with the
    text "Repository configuration missing".  Nothing else happens: the
    cadence file is not read, no request is sent, no release is filtered
    or compared, no file is written. *)
Theorem check_for_updates_without_repository
  (self : GitHubVersionChecker) (w : World) :
  repository_owner (settings self) = ""
  \/ repository_name (settings self) = "" ->
  check_for_updates self w =
    (Ok None,
     with_trace w
       (trace w
        ++ Log ERROR "Repository owner and name must be configured"
           :: (if PYQT_AVAILABLE w
               then [Emit (error_occurred "Repository configuration missing")]
               else []))).
Proof.
  intros H. unfold check_for_updates.
  assert (Hcfg : Py.falsy (repository_owner (settings self))
                 || Py.falsy (repository_name (settings self)) = true).
  { destruct H as [-> | ->]; [reflexivity|]. apply orb_true_r. }
  rewrite Hcfg.
  unfold logger_error, if_pyqt, pyqt_available, emit, record.
  cbn [bind ret M_monad PYQT_AVAILABLE with_trace trace].
  destruct (PYQT_AVAILABLE w);
    cbn [bind ret M_monad PYQT_AVAILABLE with_trace trace];
    repeat rewrite <- app_assoc; reflexivity.
Qed.

Lemma check_for_updates_without_repository_witness :
  check_for_updates unconfigured_checker
    (sample_world true (FetchOk [stable "v1.1.0"]))
  = (Ok None,
     with_trace (sample_world true (FetchOk [stable "v1.1.0"]))
       [Log ERROR "Repository owner and name must be configured";
        Emit (error_occurred "Repository configuration missing")]).
Proof.
  apply (check_for_updates_without_repository unconfigured_checker
           (sample_world true (FetchOk [stable "v1.1.0"]))).
  left. reflexivity.
Defined.

(** The claim C9 fails for a record without a timestamp: read as
    2000-01-01, it holds the check back when the interval is longer than
    the time since then, and when the clock stands before that day. *)
Lemma record_without_timestamp_can_hold_back_check :
  fst (_should_check_for_updates patient_checker
         (world_with_record sample_now record_without_timestamp))
  = Ok false
  /\ fst (_should_check_for_updates (sample_checker "1.0.0")
            (world_with_record unset_clock record_without_timestamp))
     = Ok false.
Proof. split; reflexivity. Qed.

(** C9, amended.  When the cadence file exists and is corrupt (it cannot be
    read, holds no JSON object, or holds a [last_check] that is no ISO
    timestamp or carries a UTC offset), [_should_check_for_updates]
    returns [True].  When the file is a JSON object without [last_check],
    the timestamp is taken to be 2000-01-01T00:00:00 and the answer is
    [True] exactly when more than the check interval has passed since then
    (or the interval is beyond what a [timedelta] holds). *)
Theorem should_check_with_unusable_record
  (self : GitHubVersionChecker) (w : World) (c : last_check_content) :
  last_check_file w = Some c ->
  corrupt c = true \/ missing_timestamp c = true ->
  fst (_should_check_for_updates self w)
  = Ok (corrupt c || interval_passed_since_2000 self w).
Proof.
  intros Hfile H. unfold _should_check_for_updates. rewrite Hfile.
  unfold try_except, read_last_check, interval_passed_since_2000.
  cbn [bind M_monad lift].
  destruct c as [|[|[[|[us|us]]|] cur]]; cbn [corrupt missing_timestamp] in H;
    try (destruct H; discriminate); cbn [corrupt orb get fromisoformat];
    try reflexivity;
    destruct (timedelta_hours (check_interval_hours (settings self)));
    reflexivity.
Qed.

Lemma should_check_with_unusable_record_witness :
  fst (_should_check_for_updates (sample_checker "1.0.0")
         (world_with_record sample_now LcUnreadable))
  = Ok true
  /\ fst (_should_check_for_updates (sample_checker "1.0.0")
            (world_with_record sample_now record_without_timestamp))
     = Ok true.
Proof.
  split.
  - apply (should_check_with_unusable_record (sample_checker "1.0.0")
             (world_with_record sample_now LcUnreadable) LcUnreadable).
    + reflexivity.
    + left. reflexivity.
  - apply (should_check_with_unusable_record (sample_checker "1.0.0")
             (world_with_record sample_now record_without_timestamp)
             record_without_timestamp).
    + reflexivity.
    + right. reflexivity.
Defined.

(** The cadence of the specification's examples: no record, a record just
    written, a record older than the interval. *)
Example should_check_cadence :
  fst (_should_check_for_updates (sample_checker "1.0.0")
         (sample_world false (FetchOk [])))
  = Ok true
  /\ fst (_should_check_for_updates (sample_checker "1.0.0")
            (world_with_record sample_now
               (LcJson (LcObject (Some (IsoText (Naive sample_now))) None))))
     = Ok false
  /\ fst (_should_check_for_updates (sample_checker "1.0.0")
            (world_with_record (sample_now + 24 * 3600 * 1000000 + 1)
               (LcJson (LcObject (Some (IsoText (Naive sample_now))) None))))
     = Ok true.
Proof. repeat split. Qed.

(** ** The skip list *)

Section SkipBlind.

Lemma skip_blind_ret {A} (a : A) : skip_blind (ret a).
Proof. intros f w. reflexivity. Qed.

Lemma skip_blind_bind {A B} (m : M A) (k : A -> M B) :
  skip_blind m -> (forall a, skip_blind (k a)) -> skip_blind (bind m k).
Proof.
  intros Hm Hk f w. cbn [bind M_monad]. rewrite (Hm f w).
  destruct (m w) as [[a|e] w']; cbn [fst snd]; [apply Hk|reflexivity].
Qed.

Lemma skip_blind_lift {A} (r : result A) : skip_blind (lift r).
Proof. intros f w. reflexivity. Qed.

Lemma skip_blind_try_except {A} (body : M A) (handler : exn -> M A) :
  skip_blind body -> (forall e, skip_blind (handler e)) ->
  skip_blind (try_except body handler).
Proof.
  intros Hb Hh f w. unfold try_except. rewrite (Hb f w).
  destruct (body w) as [[a|e] w']; cbn [fst snd]; [reflexivity|apply Hh].
Qed.

Lemma skip_blind_record (e : event) : skip_blind (record e).
Proof. intros f w. reflexivity. Qed.

Lemma skip_blind_pyqt_available : skip_blind pyqt_available.
Proof. intros f w. reflexivity. Qed.

Lemma skip_blind_datetime_now : skip_blind datetime_now.
Proof. intros f w. reflexivity. Qed.

Lemma skip_blind_write_last_check (data : last_check_json) :
  skip_blind (write_last_check data).
Proof.
  intros f w. unfold write_last_check.
  cbn [disk_writable replace_skip_file].
  now destruct (disk_writable w).
Qed.

Lemma skip_blind_requests_get (url : string) (token : option string) :
  skip_blind (requests_get url token).
Proof. intros f w. reflexivity. Qed.

End SkipBlind.

Create HintDb blind.

#[local] Hint Resolve skip_blind_ret skip_blind_lift skip_blind_record
  skip_blind_pyqt_available skip_blind_datetime_now
  skip_blind_write_last_check skip_blind_requests_get : blind.

(** Takes a computation apart along its binds, handlers and tests. *)
Ltac blind :=
  repeat first
    [ apply skip_blind_bind; [|intro]
    | apply skip_blind_try_except; [|intro]
    | progress auto with blind
    | apply skip_blind_record
    | match goal with
      | |- skip_blind (if ?b then _ else _) => destruct b
      | |- skip_blind (match ?x with _ => _ end) => destruct x
      end ].

Section SkipList.

Variable self : GitHubVersionChecker.

Lemma skip_blind_should_check : skip_blind (_should_check_for_updates self).
Proof.
  intros f w. unfold _should_check_for_updates.
  cbn [last_check_file replace_skip_file].
  destruct (last_check_file w) as [content|]; [|reflexivity].
  revert f w. unfold read_last_check, logger_warning_exc. blind.
Qed.

Lemma skip_blind_update_last_check_time :
  skip_blind (_update_last_check_time self).
Proof. unfold _update_last_check_time, logger_error_exc. blind. Qed.

Lemma skip_blind_make_github_request (url : string) :
  skip_blind (_make_github_request self url).
Proof.
  unfold _make_github_request, logger_error, if_pyqt, emit. blind.
Qed.

Lemma skip_blind_release_loop (l : list release_data) :
  skip_blind (release_loop self l).
Proof.
  induction l as [|d rest IH]; cbn [release_loop]; cbv zeta;
    unfold logger_info.
  - blind.
  - generalize (_parse_release_info d). intros r.
    destruct (is_prerelease r && negb (notify_on_prerelease (settings self)));
      [exact IH|].
    destruct (is_draft r && negb (notify_on_draft (settings self)));
      [exact IH|].
    apply skip_blind_bind; [blind|]. intros c.
    destruct (c <? 0); [|exact IH].
    blind.
Qed.

(** [check_for_updates] neither reads nor writes the skip list. *)
Lemma skip_blind_check_for_updates : skip_blind (check_for_updates self).
Proof.
  unfold check_for_updates, logger_error, logger_info, if_pyqt, emit.
  destruct (Py.falsy (repository_owner (settings self))
            || Py.falsy (repository_name (settings self))).
  - blind.
  - apply skip_blind_bind; [apply skip_blind_should_check|]. intros due.
    destruct (negb due); [blind|].
    apply skip_blind_bind; [blind|]. intros _.
    apply skip_blind_bind; [apply skip_blind_make_github_request|].
    intros [[|d rest]|]; [blind| |blind].
    apply skip_blind_release_loop.
Qed.

(** The membership test of the code, on a stored list. *)
Lemma listed_iff (v : string) (items : list json) :
  existsb (json_eq_str v) items = true <-> In v (version_strings items).
Proof.
  unfold version_strings. rewrite existsb_exists, in_flat_map. split.
  - intros [j [Hin Hj]]. exists j. split; [exact Hin|].
    destruct j; try discriminate. simpl in Hj.
    apply String.eqb_eq in Hj. subst. now left.
  - intros [j [Hin Hj]]. exists j. split; [exact Hin|].
    destruct j; try contradiction. destruct Hj as [->|[]].
    simpl. apply String.eqb_refl.
Qed.

Lemma version_strings_app (items more : list json) :
  version_strings (items ++ more)
  = (version_strings items ++ version_strings more)%list.
Proof. unfold version_strings. apply flat_map_app. Qed.

(** The log plays no part in reading the skip list. *)
Lemma load_skipped_versions_with_trace (w : World) (t : list event) :
  fst (load_skipped_versions (with_trace w t))
  = fst (load_skipped_versions w).
Proof.
  unfold load_skipped_versions. cbn [skip_file with_trace].
  now destruct (skip_file w) as [[|j]|].
Qed.

End SkipList.

(** The claim C3 fails: the only eligible release is newer and its version
    is in the skip list, and the check still returns it. *)
Lemma skipped_version_is_still_returned :
  py_in "1.1.0" (JArray [JString "1.1.0"]) = Ok true
  /\ fst (check_for_updates (sample_checker "1.0.0")
            (world_with_skip_list true [JString "1.1.0"]
               (FetchOk [stable "v1.1.0"])))
     = Ok (Some (_parse_release_info (stable "v1.1.0")))
  /\ version (_parse_release_info (stable "v1.1.0")) = "1.1.0".
Proof. repeat split. Qed.

(** C3, amended.  [check_for_updates] does not consult the skip list: it
    returns the same decision whatever the skip list holds, so a newer
    eligible release is returned also when its version has been skipped.
    The skip is honoured by the notification handler: with the GUI toolkit
    available and the release's version in the persisted skip list,
    [_handle_new_version] logs that it skips the notification and opens no
    dialog. *)
Theorem skipped_version_is_returned_but_not_shown
  (self : GitHubVersionChecker) (w : World) (r : ReleaseInfo)
  (items : list json) :
  PYQT_AVAILABLE w = true ->
  skip_file w = Some (SkJson (JArray items)) ->
  In (version r) (version_strings items) ->
  (forall f : option skip_content,
      fst (check_for_updates self (replace_skip_file w f))
      = fst (check_for_updates self w))
  /\ _handle_new_version r w
     = (Ok tt,
        with_trace w
          (trace w
           ++ [Log INFO ("New version notification: " ++ version r);
               Log INFO ("Skipping notification for version " ++ version r)])).
Proof.
  intros Hgui Hfile Hin. split.
  - intros f. now rewrite (skip_blind_check_for_updates self f w).
  - apply listed_iff in Hin.
    unfold _handle_new_version, logger_info, pyqt_available, record,
      load_skipped_versions, lift.
    cbn [bind ret M_monad PYQT_AVAILABLE skip_file with_trace trace].
    rewrite Hgui. cbn [negb skip_file with_trace]. rewrite Hfile.
    cbn [py_in]. rewrite Hin.
    cbn [PYQT_AVAILABLE skip_file with_trace trace].
    now rewrite <- app_assoc.
Qed.

Lemma skipped_version_is_returned_but_not_shown_witness :
  (forall f : option skip_content,
      fst (check_for_updates (sample_checker "1.0.0")
             (replace_skip_file
                (world_with_skip_list true [JString "1.1.0"]
                   (FetchOk [stable "v1.1.0"])) f))
      = fst (check_for_updates (sample_checker "1.0.0")
               (world_with_skip_list true [JString "1.1.0"]
                  (FetchOk [stable "v1.1.0"]))))
  /\ _handle_new_version (_parse_release_info (stable "v1.1.0"))
       (world_with_skip_list true [JString "1.1.0"]
          (FetchOk [stable "v1.1.0"]))
     = (Ok tt,
        with_trace
          (world_with_skip_list true [JString "1.1.0"]
             (FetchOk [stable "v1.1.0"]))
          [Log INFO "New version notification: 1.1.0";
           Log INFO "Skipping notification for version 1.1.0"]).
Proof.
  apply (skipped_version_is_returned_but_not_shown (sample_checker "1.0.0")
           (world_with_skip_list true [JString "1.1.0"]
              (FetchOk [stable "v1.1.0"]))
           (_parse_release_info (stable "v1.1.0")) [JString "1.1.0"]).
  - reflexivity.
  - reflexivity.
  - simpl. left. reflexivity.
Defined.

(** Without the GUI toolkit the handler prints the notification and never
    looks at the skip list. *)
Example headless_handler_prints_skipped_version :
  trace (snd (_handle_new_version (_parse_release_info (stable "v1.1.0"))
                (world_with_skip_list false [JString "1.1.0"]
                   (FetchOk [stable "v1.1.0"]))))
  = [Log INFO "New version notification: 1.1.0";
     Print "New version 1.1.0 available: https://github.com/octo/app/releases/tag/v1.1.0"].
Proof. reflexivity. Qed.

(** A version not in the list gets its dialog. *)
Example handler_opens_dialog :
  trace (snd (_handle_new_version (_parse_release_info (stable "v1.2.0"))
                (world_with_skip_list true [JString "1.1.0"]
                   (FetchOk [stable "v1.2.0"]))))
  = [Log INFO "New version notification: 1.2.0";
     DialogExec (_parse_release_info (stable "v1.2.0"))].
Proof. reflexivity. Qed.

(** C10.  [skip_version] keeps the persisted skip list free of duplicates.
    On a stored list without duplicate versions and a writable directory:
    it raises nothing; a version already in the list leaves the file as it
    is; a new version is appended as the one new, last entry; the list
    stored afterwards has no duplicate versions; and skipping the same
    version once more changes nothing. *)
Theorem skip_version_keeps_list_duplicate_free
  (r : ReleaseInfo) (w : World) (items : list json) :
  fst (load_skipped_versions w) = Ok (JArray items) ->
  disk_writable w = true ->
  NoDup (version_strings items) ->
  fst (skip_version r w) = Ok tt
  /\ (if existsb (json_eq_str (version r)) items
      then skip_file (snd (skip_version r w)) = skip_file w
      else skip_file (snd (skip_version r w))
           = Some (SkJson (JArray (items ++ [JString (version r)]))))
  /\ (exists items' : list json,
         fst (load_skipped_versions (snd (skip_version r w)))
         = Ok (JArray items')
         /\ NoDup (version_strings items'))
  /\ skip_file (snd (skip_version r (snd (skip_version r w))))
     = skip_file (snd (skip_version r w)).
Proof.
  intros Hload Hdisk Hnodup.
  assert (Hstep : forall w0 items0,
             fst (load_skipped_versions w0) = Ok (JArray items0) ->
             disk_writable w0 = true ->
             skip_version r w0 =
               if existsb (json_eq_str (version r)) items0
               then (Ok tt, with_trace w0 (trace w0 ++ [DialogAccept]))
               else (Ok tt,
                     with_trace
                       (with_skip_file w0
                          (SkJson (JArray (items0 ++ [JString (version r)]))))
                       (trace w0 ++ [DialogAccept]))).
  { intros w0 items0 H0 Hd0. unfold skip_version.
    cbn [bind M_monad].
    assert (Hl : load_skipped_versions w0 = (Ok (JArray items0), w0)).
    { revert H0. unfold load_skipped_versions.
      destruct (skip_file w0) as [[|j]|]; cbn [fst]; congruence. }
    rewrite Hl. unfold lift. cbn [py_in].
    destruct (existsb (json_eq_str (version r)) items0); cbn [negb].
    - reflexivity.
    - cbn [py_append]. unfold try_except, write_skipped_versions.
      rewrite Hd0. reflexivity. }
  rewrite (Hstep w items Hload Hdisk).
  destruct (existsb (json_eq_str (version r)) items) eqn:Hlisted;
    cbn [fst snd].
  - assert (Hload' : fst (load_skipped_versions
                            (with_trace w (trace w ++ [DialogAccept])))
                      = Ok (JArray items))
      by now rewrite load_skipped_versions_with_trace.
    repeat split.
    + exists items. split; [exact Hload'|exact Hnodup].
    + rewrite (Hstep _ items); [now rewrite Hlisted|exact Hload'|exact Hdisk].
  - repeat split.
    + exists (items ++ [JString (version r)])%list. split; [reflexivity|].
      rewrite version_strings_app. apply NoDup_app; [exact Hnodup| |].
      * simpl. apply NoDup_cons; [intros []|constructor].
      * intros v Hv [<-|[]].
        apply listed_iff in Hv. congruence.
    + rewrite (Hstep _ (items ++ [JString (version r)])%list);
        [|reflexivity|exact Hdisk].
      rewrite existsb_app. cbn [existsb json_eq_str].
      rewrite String.eqb_refl, orb_true_r. reflexivity.
Qed.

Lemma skip_version_keeps_list_duplicate_free_witness :
  fst (skip_version (_parse_release_info (stable "v1.2.0"))
         (world_with_skip_list true [JString "1.1.0"] (FetchOk [])))
  = Ok tt
  /\ skip_file
       (snd (skip_version (_parse_release_info (stable "v1.2.0"))
               (world_with_skip_list true [JString "1.1.0"] (FetchOk []))))
     = Some (SkJson (JArray [JString "1.1.0"; JString "1.2.0"])).
Proof.
  destruct (skip_version_keeps_list_duplicate_free
              (_parse_release_info (stable "v1.2.0"))
              (world_with_skip_list true [JString "1.1.0"] (FetchOk []))
              [JString "1.1.0"]) as [Hret [Hfile _]].
  - reflexivity.
  - reflexivity.
  - simpl. apply NoDup_cons; [intros []|constructor].
  - split; [exact Hret|exact Hfile].
Defined.

(** A first skip creates the list; a list that is not a JSON array makes
    the append raise. *)
Example skip_version_examples :
  skip_file (snd (skip_version (_parse_release_info (stable "v1.1.0"))
                    (sample_world true (FetchOk []))))
  = Some (SkJson (JArray [JString "1.1.0"]))
  /\ fst (skip_version (_parse_release_info (stable "v1.1.0"))
            (replace_skip_file (sample_world true (FetchOk []))
               (Some (SkJson (JObject [])))))
     = Raise AttributeError
  /\ fst (skip_version (_parse_release_info (stable "v1.1.0"))
            (replace_skip_file (sample_world true (FetchOk []))
               (Some (SkJson JNull))))
     = Raise TypeError.
Proof. repeat split. Qed.

(** * Further properties *)

(** ** The order of [_compare_versions] *)

Section Order.

Lemma tuple_compare_refl (a : list Z) : Py.tuple_compare a a = Eq.
Proof. induction a as [|x a IH]; simpl; trivial. now rewrite Z.compare_refl. Qed.

Lemma tuple_compare_eq (a b : list Z) : Py.tuple_compare a b = Eq -> a = b.
Proof.
  revert b. induction a as [|x a IH]; intros [|y b]; simpl; try discriminate;
    trivial.
  destruct (Z.compare x y) eqn:E; try discriminate.
  apply Z.compare_eq in E. intros H. now rewrite E, (IH b H).
Qed.

Lemma tuple_compare_trans (a b c : list Z) :
  Py.tuple_compare a b = Lt -> Py.tuple_compare b c = Lt ->
  Py.tuple_compare a c = Lt.
Proof.
  revert b c. induction a as [|x a IH]; intros [|y b] [|z c]; simpl;
    try discriminate; trivial.
  destruct (Z.compare x y) eqn:Exy; try discriminate;
    destruct (Z.compare y z) eqn:Eyz; try discriminate; intros H1 H2.
  - apply Z.compare_eq in Exy, Eyz. subst. rewrite Z.compare_refl.
    now apply (IH b c).
  - apply Z.compare_eq in Exy. subst. now rewrite Eyz.
  - apply Z.compare_eq in Eyz. subst. now rewrite Exy.
  - rewrite Z.compare_lt_iff in Exy, Eyz.
    now rewrite (proj2 (Z.compare_lt_iff x z) (Z.lt_trans _ _ _ Exy Eyz)).
Qed.

Lemma ascii_compare_refl (c : ascii) : Ascii.compare c c = Eq.
Proof. unfold Ascii.compare. apply N.compare_refl. Qed.

Lemma string_compare_refl (s : string) : String.compare s s = Eq.
Proof.
  induction s as [|c s IH]; simpl; trivial. now rewrite ascii_compare_refl.
Qed.

Lemma string_compare_trans (a b c : string) :
  String.compare a b = Lt -> String.compare b c = Lt ->
  String.compare a c = Lt.
Proof.
  revert b c. induction a as [|x a IH]; intros [|y b] [|z c]; simpl;
    try discriminate; trivial.
  destruct (Ascii.compare x y) eqn:Exy; try discriminate;
    destruct (Ascii.compare y z) eqn:Eyz; try discriminate; intros H1 H2.
  - apply Ascii.compare_eq_iff in Exy, Eyz. subst.
    rewrite ascii_compare_refl. now apply (IH b c).
  - apply Ascii.compare_eq_iff in Exy. subst. now rewrite Eyz.
  - apply Ascii.compare_eq_iff in Eyz. subst. now rewrite Exy.
  - unfold Ascii.compare in *. rewrite N.compare_lt_iff in Exy, Eyz.
    now rewrite (proj2 (N.compare_lt_iff _ _) (N.lt_trans _ _ _ Exy Eyz)).
Qed.

Lemma ok_outcome_eq (c : comparison) (d : comparison) :
  @Ok Z (outcome c) = Ok (outcome d) -> c = d.
Proof.
  destruct c, d; unfold outcome, LESS, EQUAL, GREATER; intros H;
    trivial; discriminate H.
Qed.

Lemma version_tuple_empty : version_tuple "" = Raise ValueError.
Proof. reflexivity. Qed.

End Order.

(** X1.  [_compare_versions] answers EQUAL exactly when both versions
    convert to the same tuple of integers or, in the string mode, when the
    two strings are identical; so a version is EQUAL to itself whether it
    converts or not. *)
Theorem compare_versions_equal_iff (a b : string) :
  (_compare_versions a b = Ok EQUAL
   <-> match version_tuple a, version_tuple b with
       | Ok ta, Ok tb => ta = tb
       | _, _ => a = b
       end)
  /\ _compare_versions a a = Ok EQUAL.
Proof.
  split.
  - rewrite compare_closed_form. change EQUAL with (outcome Eq).
    destruct (version_tuple a) as [ta|ea], (version_tuple b) as [tb|eb];
      (split;
       [ intros H; apply ok_outcome_eq in H;
         first [ now apply tuple_compare_eq | now apply String.compare_eq_iff ]
       | intros ->;
         first [ now rewrite tuple_compare_refl
               | now rewrite string_compare_refl ] ]).
  - rewrite compare_closed_form. change EQUAL with (outcome Eq).
    destruct (version_tuple a) as [ta|ea];
      [now rewrite tuple_compare_refl|now rewrite string_compare_refl].
Qed.

(** X2.  Among versions that all convert to integers, and among versions
    none of which does, LESS is transitive. *)
Theorem compare_versions_transitive_within_mode (a b c : string) :
  parses a = parses b ->
  parses b = parses c ->
  _compare_versions a b = Ok LESS ->
  _compare_versions b c = Ok LESS ->
  _compare_versions a c = Ok LESS.
Proof.
  unfold parses.
  rewrite (compare_closed_form a b), (compare_closed_form b c),
    (compare_closed_form a c).
  change LESS with (outcome Lt).
  destruct (version_tuple a) as [ta|ea], (version_tuple b) as [tb|eb],
    (version_tuple c) as [tc|ec]; try discriminate;
    intros _ _ H1 H2; apply ok_outcome_eq in H1, H2; f_equal; f_equal.
  - now apply (tuple_compare_trans ta tb tc).
  - now apply (string_compare_trans a b c).
Qed.

Lemma compare_versions_transitive_within_mode_witness :
  _compare_versions "1.9" "1.9.1" = Ok LESS
  /\ _compare_versions "1.9.1" "1.10" = Ok LESS
  /\ _compare_versions "1.9" "1.10" = Ok LESS.
Proof.
  split; [reflexivity|]. split; [reflexivity|].
  apply (compare_versions_transitive_within_mode "1.9" "1.9.1" "1.10");
    reflexivity.
Defined.

(** X3.  Across the two modes LESS is not transitive: "9" is LESS than
    "10" as integers, "10" is LESS than "1a" and "1a" LESS than "9" as
    strings.  [_compare_versions] is no order on arbitrary tags. *)
Theorem compare_versions_not_transitive :
  ~ (forall a b c : string,
        _compare_versions a b = Ok LESS ->
        _compare_versions b c = Ok LESS ->
        _compare_versions a c = Ok LESS).
Proof.
  intros H.
  assert (Hcycle : _compare_versions "9" "1a" = Ok LESS)
    by (apply (H "9" "10" "1a"); reflexivity).
  vm_compute in Hcycle. discriminate Hcycle.
Qed.

(** X4.  The empty version, which a release without a tag and an empty
    [version.txt] give, is below every other string: no current version is
    LESS than it, and as a current version it is LESS than every non-empty
    one. *)
Theorem compare_versions_with_empty (v : string) :
  _compare_versions v "" <> Ok LESS
  /\ (if Py.falsy v then _compare_versions "" v = Ok EQUAL
      else _compare_versions "" v = Ok LESS).
Proof.
  split.
  - rewrite compare_closed_form, version_tuple_empty.
    assert (Hs : String.compare v "" <> Lt) by (destruct v; discriminate).
    destruct (version_tuple v); intros H; change LESS with (outcome Lt) in H;
      apply ok_outcome_eq in H; contradiction.
  - rewrite compare_closed_form, version_tuple_empty.
    destruct v; reflexivity.
Qed.

(** ** Shared closed forms *)

Section ClosedForms.

(** The exit of [check_for_updates] without a repository. *)
Lemma check_for_updates_without_repository_form
  (self : GitHubVersionChecker) (w : World) :
  repository_owner (settings self) = ""
  \/ repository_name (settings self) = "" ->
  check_for_updates self w =
    (Ok None,
     with_trace w
       (trace w
        ++ Log ERROR "Repository owner and name must be configured"
           :: (if PYQT_AVAILABLE w
               then [Emit (error_occurred "Repository configuration missing")]
               else []))).
Proof.
  intros H. unfold check_for_updates.
  assert (Hcfg : Py.falsy (repository_owner (settings self))
                 || Py.falsy (repository_name (settings self)) = true).
  { destruct H as [-> | ->]; [reflexivity|]. apply orb_true_r. }
  rewrite Hcfg.
  unfold logger_error, if_pyqt, pyqt_available, emit, record.
  cbn [bind ret M_monad PYQT_AVAILABLE with_trace trace].
  destruct (PYQT_AVAILABLE w);
    cbn [bind ret M_monad PYQT_AVAILABLE with_trace trace];
    repeat rewrite <- app_assoc; reflexivity.
Qed.

(** [skip_version] on a stored list. *)
Lemma skip_version_on_list (r : ReleaseInfo) (w : World) (items : list json) :
  fst (load_skipped_versions w) = Ok (JArray items) ->
  skip_version r w =
    if existsb (json_eq_str (version r)) items
    then (Ok tt, with_trace w (trace w ++ [DialogAccept]))
    else if disk_writable w
    then (Ok tt,
          with_trace
            (with_skip_file w
               (SkJson (JArray (items ++ [JString (version r)]))))
            (trace w ++ [DialogAccept]))
    else (Ok tt,
          with_trace w
            (trace w
             ++ [LogExc ERROR "Error saving skipped versions: " OSError;
                 DialogAccept])).
Proof.
  intros H0. unfold skip_version. cbn [bind M_monad].
  assert (Hl : load_skipped_versions w = (Ok (JArray items), w)).
  { revert H0. unfold load_skipped_versions.
    destruct (skip_file w) as [[|j]|]; cbn [fst]; congruence. }
  rewrite Hl. unfold lift. cbn [py_in].
  destruct (existsb (json_eq_str (version r)) items); cbn [negb].
  - reflexivity.
  - cbn [py_append]. unfold try_except, write_skipped_versions.
    destruct (disk_writable w); [reflexivity|].
    unfold logger_error_exc, record.
    cbn [with_trace trace]. now rewrite <- app_assoc.
Qed.

End ClosedForms.

(** ** What a check touches *)

Section Footprint.

Variable self : GitHubVersionChecker.

(** [_should_check_for_updates] adds at most a warning to the log. *)
Lemma should_check_trace (w : World) :
  exists (due : bool) (extra : list event),
    _should_check_for_updates self w
    = (Ok due, with_trace w (trace w ++ extra))
    /\ filter is_http extra = [].
Proof.
  unfold _should_check_for_updates.
  destruct (last_check_file w) as [content|].
  2:{ exists true, []. now rewrite app_nil_r, with_trace_same. }
  unfold try_except, read_last_check. simpl. unfold lift.
  destruct content as [|[|[[|[us|us]]|] cur]]; simpl;
    try destruct (timedelta_hours (check_interval_hours (settings self)));
    simpl;
    first [ eexists; eexists (cons _ nil); split; reflexivity
          | eexists; exists []; rewrite app_nil_r, with_trace_same;
            split; reflexivity ].
Qed.

(** Its answer depends on the clock and the cadence file only. *)
Lemma should_check_depends (w w' : World) :
  now w' = now w -> last_check_file w' = last_check_file w ->
  fst (_should_check_for_updates self w')
  = fst (_should_check_for_updates self w).
Proof.
  intros Hnow Hfile. unfold _should_check_for_updates. rewrite Hfile.
  destruct (last_check_file w) as [content|]; [|reflexivity].
  unfold try_except, read_last_check, datetime_now. simpl. unfold lift.
  rewrite Hnow.
  destruct content as [|[|[[|[us|us]]|] cur]]; simpl; trivial;
    destruct (timedelta_hours (check_interval_hours (settings self)));
    reflexivity.
Qed.

Lemma check_for_updates_not_due (w : World) (t : list event) :
  Py.falsy (repository_owner (settings self)) = false ->
  Py.falsy (repository_name (settings self)) = false ->
  _should_check_for_updates self w = (Ok false, with_trace w t) ->
  check_for_updates self w
  = (Ok None,
     with_trace w
       (t ++ [Log INFO "Skipping update check - too soon since last check"])).
Proof.
  intros Howner Hrepo Hs.
  unfold check_for_updates. rewrite Howner, Hrepo. cbn [orb].
  cbn [bind M_monad]. rewrite Hs. reflexivity.
Qed.

(** The loop adds log lines and, on a writable directory, the stamp. *)
Lemma release_loop_final (l : list release_data) (w : World) :
  exists logs : list event,
    filter is_http logs = []
    /\ snd (release_loop self l w)
       = if disk_writable w
         then with_last_check_file (with_trace w (trace w ++ logs))
                (stamp self w)
         else with_trace w (trace w ++ logs).
Proof.
  induction l as [|d rest IH].
  - simpl. unfold logger_info, record. simpl.
    rewrite update_last_check_time_closed_form. simpl.
    destruct (disk_writable w); simpl.
    + eexists (cons _ nil). split; [|reflexivity]. reflexivity.
    + eexists (cons _ (cons _ nil)). rewrite <- app_assoc.
      split; [|reflexivity]. reflexivity.
  - rewrite release_loop_cons.
    destruct (notifiable self (_parse_release_info d)); [|exact IH].
    simpl. unfold logger_info, record. simpl.
    rewrite update_last_check_time_closed_form. simpl.
    destruct (disk_writable w); simpl.
    + eexists (cons _ nil). split; [|reflexivity]. reflexivity.
    + eexists (cons _ (cons _ nil)). rewrite <- app_assoc.
      split; [|reflexivity]. reflexivity.
Qed.

Lemma same_surroundings_with_trace (w : World) (t : list event) :
  same_surroundings w (with_trace w t).
Proof. repeat split. Qed.

(** Every path through [check_for_updates], at once: no exception, a log
    that only grows, the one request exactly when the check goes ahead,
    surroundings left as they were, and a result taken from the fetched
    list. *)
Lemma check_for_updates_footprint (w : World) :
  exists (r : option ReleaseInfo) (added : list event),
    fst (check_for_updates self w) = Ok r
    /\ trace (snd (check_for_updates self w)) = (trace w ++ added)%list
    /\ filter is_http added
       = (if goes_ahead self w
          then [HttpGet (releases_url (settings self))
                  (authorization (settings self))]
          else [])
    /\ same_surroundings w (snd (check_for_updates self w))
    /\ (r = None
        \/ exists l : list release_data,
             github w (releases_url (settings self))
               (authorization (settings self)) = FetchOk l
             /\ r = find (notifiable self) (map _parse_release_info l)).
Proof.
  unfold goes_ahead.
  destruct (Py.falsy (repository_owner (settings self))
            || Py.falsy (repository_name (settings self))) eqn:Hcfg.
  - assert (H : repository_owner (settings self) = ""
                \/ repository_name (settings self) = "").
    { apply orb_true_iff in Hcfg.
      destruct Hcfg as [H|H]; [left|right];
        [destruct (repository_owner (settings self))
        |destruct (repository_name (settings self))];
        trivial; discriminate. }
    rewrite (check_for_updates_without_repository_form self w H).
    eexists; eexists. split; [reflexivity|]. split; [reflexivity|].
    split; [now destruct (PYQT_AVAILABLE w)|].
    split; [apply same_surroundings_with_trace|now left].
  - apply orb_false_iff in Hcfg. destruct Hcfg as [Howner Hrepo].
    destruct (should_check_trace w) as [due [extra [Hs Hextra]]].
    rewrite Hs. cbn [negb andb fst].
    destruct due.
    + rewrite (check_for_updates_due self w _ Howner Hrepo Hs).
      destruct (github w _ _) as [reason|[|d rest]] eqn:Hfetch.
      * eexists; eexists. split; [reflexivity|].
        split; [cbn [snd trace with_trace]; rewrite <- !app_assoc;
                reflexivity|].
        split; [rewrite !filter_app, Hextra;
                now destruct (PYQT_AVAILABLE w)|].
        split; [apply same_surroundings_with_trace|now left].
      * eexists; eexists. split; [reflexivity|].
        split; [cbn [snd trace with_trace]; rewrite <- !app_assoc;
                reflexivity|].
        split; [now rewrite !filter_app, Hextra|].
        split; [apply same_surroundings_with_trace|now left].
      * rewrite release_loop_result.
        destruct (release_loop_final (d :: rest)
                    (with_trace w
                       (trace w ++ extra ++
                        [Log INFO ("Checking for updates in "
                                   ++ repository_owner (settings self) ++ "/"
                                   ++ repository_name (settings self));
                         HttpGet (releases_url (settings self))
                           (authorization (settings self))])))
          as [logs [Hlogs Hw]].
        rewrite <- app_assoc. rewrite Hw.
        cbn [disk_writable with_trace trace].
        eexists; eexists. split; [reflexivity|].
        split; [destruct (disk_writable w);
                cbn [trace with_trace with_last_check_file];
                rewrite <- !app_assoc; reflexivity|].
        split; [now rewrite !filter_app, Hextra, Hlogs|].
        split; [destruct (disk_writable w); repeat split|].
        right. now exists (d :: rest).
    + rewrite (check_for_updates_not_due w _ Howner Hrepo Hs).
      eexists; eexists. split; [reflexivity|].
      split; [cbn [snd trace with_trace]; rewrite <- !app_assoc;
              reflexivity|].
      split; [now rewrite !filter_app, Hextra|].
      split; [apply same_surroundings_with_trace|now left].
Qed.

End Footprint.

Section Policy.

Variable self : GitHubVersionChecker.

Lemma timedelta_hours_in_range (h : Z) :
  Z.abs (h / 24) <= 999999999 ->
  timedelta_hours h = Ok (h * 3600 * 1000000).
Proof.
  intros H. unfold timedelta_hours.
  destruct (Z.abs (h / 24) >? 999999999) eqn:E; [|reflexivity].
  apply Z.gtb_lt in E. exfalso. apply (Z.lt_irrefl 999999999).
  now apply (Z.lt_le_trans _ (Z.abs (h / 24))).
Qed.

(** With a usable timestamp in the cadence file, the answer is the
    comparison of the elapsed time with the interval, and nothing is
    logged. *)
Lemma should_check_with_timestamp (w : World) (t : Z) (cur : option string) :
  last_check_file w = Some (LcJson (LcObject (Some (IsoText (Naive t))) cur)) ->
  Z.abs (check_interval_hours (settings self) / 24) <= 999999999 ->
  _should_check_for_updates self w
  = (Ok (now w - t >? check_interval_hours (settings self) * 3600 * 1000000),
     w).
Proof.
  intros Hfile Hrange. unfold _should_check_for_updates. rewrite Hfile.
  unfold try_except, read_last_check, datetime_now.
  cbn [bind M_monad lift get fromisoformat].
  rewrite (timedelta_hours_in_range _ Hrange). reflexivity.
Qed.

Lemma check_for_updates_too_soon (w : World) (t : Z) (cur : option string) :
  Py.falsy (repository_owner (settings self)) = false ->
  Py.falsy (repository_name (settings self)) = false ->
  last_check_file w = Some (LcJson (LcObject (Some (IsoText (Naive t))) cur)) ->
  Z.abs (check_interval_hours (settings self) / 24) <= 999999999 ->
  now w - t <= check_interval_hours (settings self) * 3600 * 1000000 ->
  check_for_updates self w
  = (Ok None,
     with_trace w
       (trace w
        ++ [Log INFO "Skipping update check - too soon since last check"])).
Proof.
  intros Howner Hrepo Hfile Hrange Hsoon.
  apply (check_for_updates_not_due self w (trace w) Howner Hrepo).
  rewrite (should_check_with_timestamp w t cur Hfile Hrange), with_trace_same.
  f_equal. f_equal. rewrite Z.gtb_ltb. apply Z.ltb_ge. exact Hsoon.
Qed.

Lemma compare_with_empty_is_not_less (v : string) :
  _compare_versions v "" <> Ok LESS.
Proof.
  rewrite compare_closed_form, version_tuple_empty.
  assert (Hs : String.compare v "" <> Lt) by (destruct v; discriminate).
  destruct (version_tuple v); intros H; change LESS with (outcome Lt) in H;
    apply ok_outcome_eq in H; contradiction.
Qed.

Lemma newer_is_less (current v : string) :
  newer current v = true -> _compare_versions current v = Ok LESS.
Proof.
  unfold newer. destruct (compare_returns current v) as [c ->].
  destruct c; simpl; try discriminate. reflexivity.
Qed.

End Policy.


(** X6.  [check_for_updates] only adds to the log, and it sends one GET, to
    the releases URL of the configured repository with the configured
    authorization, exactly when owner and name are set and the cadence
    lets the check go ahead; otherwise it sends nothing. *)
Theorem check_for_updates_sends_one_request_or_none
  (self : GitHubVersionChecker) (w : World) :
  exists added : list event,
    trace (snd (check_for_updates self w)) = (trace w ++ added)%list
    /\ filter is_http added
       = if goes_ahead self w
         then [HttpGet (releases_url (settings self))
                 (authorization (settings self))]
         else [].
Proof.
  destruct (check_for_updates_footprint self w)
    as [r [added [_ [Htrace [Hhttp _]]]]].
  now exists added.
Qed.

(** X7.  A release that [check_for_updates] returns is one of the fetched
    releases, is not filtered out by the settings, has a version that
    compares as newer than the current one, and has a non-empty version:
    a release without a tag is never reported. *)
Theorem returned_release_is_eligible_and_newer
  (self : GitHubVersionChecker) (w : World) (r : ReleaseInfo) :
  fst (check_for_updates self w) = Ok (Some r) ->
  (exists l : list release_data,
      github w (releases_url (settings self)) (authorization (settings self))
      = FetchOk l
      /\ In r (map _parse_release_info l))
  /\ skipped (settings self) r = false
  /\ _compare_versions (current_version self) (version r) = Ok LESS
  /\ Py.falsy (version r) = false.
Proof.
  intros H.
  destruct (check_for_updates_footprint self w)
    as [r' [added [Hr [_ [_ [_ Hfrom]]]]]].
  rewrite Hr in H. injection H as ->.
  destruct Hfrom as [Hnone|[l [Hfetch Hfind]]]; [discriminate|].
  symmetry in Hfind. apply find_some in Hfind. destruct Hfind as [Hin Hnot].
  unfold notifiable in Hnot. apply andb_true_iff in Hnot.
  destruct Hnot as [Hskip Hnew]. apply negb_true_iff in Hskip.
  apply newer_is_less in Hnew.
  split; [now exists l|]. split; [exact Hskip|]. split; [exact Hnew|].
  destruct (version r); [|reflexivity].
  now apply compare_with_empty_is_not_less in Hnew.
Qed.

Lemma returned_release_is_eligible_and_newer_witness :
  (exists l : list release_data,
      github (sample_world true (FetchOk releases_mixed))
        (releases_url (settings (sample_checker "1.1.0")))
        (authorization (settings (sample_checker "1.1.0")))
      = FetchOk l
      /\ In (_parse_release_info (stable "v1.2.0"))
           (map _parse_release_info l))
  /\ skipped (settings (sample_checker "1.1.0"))
       (_parse_release_info (stable "v1.2.0")) = false
  /\ _compare_versions (current_version (sample_checker "1.1.0"))
       (version (_parse_release_info (stable "v1.2.0"))) = Ok LESS
  /\ Py.falsy (version (_parse_release_info (stable "v1.2.0"))) = false.
Proof.
  apply (returned_release_is_eligible_and_newer (sample_checker "1.1.0")
           (sample_world true (FetchOk releases_mixed))).
  reflexivity.
Defined.

(** X8.  Rate limiting: with a usable timestamp in the cadence file and
    no more than the check interval elapsed since, [check_for_updates]
    returns [None], sends no request and writes nothing; it only logs that
    the check is skipped. *)
Theorem check_within_interval_sends_nothing
  (self : GitHubVersionChecker) (w : World) (t : Z) (cur : option string) :
  Py.falsy (repository_owner (settings self)) = false ->
  Py.falsy (repository_name (settings self)) = false ->
  last_check_file w = Some (LcJson (LcObject (Some (IsoText (Naive t))) cur)) ->
  Z.abs (check_interval_hours (settings self) / 24) <= 999999999 ->
  now w - t <= check_interval_hours (settings self) * 3600 * 1000000 ->
  check_for_updates self w
  = (Ok None,
     with_trace w
       (trace w
        ++ [Log INFO "Skipping update check - too soon since last check"])).
Proof. apply check_for_updates_too_soon. Qed.

Lemma check_within_interval_sends_nothing_witness :
  check_for_updates (sample_checker "1.0.0")
    (world_with_record (sample_now + 3600 * 1000000)
       (LcJson (LcObject (Some (IsoText (Naive sample_now))) (Some "1.0.0"))))
  = (Ok None,
     with_trace
       (world_with_record (sample_now + 3600 * 1000000)
          (LcJson (LcObject (Some (IsoText (Naive sample_now)))
                     (Some "1.0.0"))))
       [Log INFO "Skipping update check - too soon since last check"]).
Proof.
  apply (check_within_interval_sends_nothing (sample_checker "1.0.0")
           (world_with_record (sample_now + 3600 * 1000000)
              (LcJson (LcObject (Some (IsoText (Naive sample_now)))
                         (Some "1.0.0"))))
           sample_now (Some "1.0.0"));
    try reflexivity; vm_compute; discriminate.
Defined.

(** X9.  After a check that examined at least one release, the very next
    check is skipped: with a non-negative interval and a writable
    directory, calling [check_for_updates] again at the same instant
    returns [None] and sends no request. *)
Theorem second_check_in_a_row_is_skipped
  (self : GitHubVersionChecker) (w : World) (d : release_data)
  (rest : list release_data) :
  Py.falsy (repository_owner (settings self)) = false ->
  Py.falsy (repository_name (settings self)) = false ->
  fst (_should_check_for_updates self w) = Ok true ->
  github w (releases_url (settings self)) (authorization (settings self))
  = FetchOk (d :: rest) ->
  disk_writable w = true ->
  0 <= check_interval_hours (settings self) ->
  check_interval_hours (settings self) / 24 <= 999999999 ->
  check_for_updates self (snd (check_for_updates self w))
  = (Ok None,
     with_trace (snd (check_for_updates self w))
       (trace (snd (check_for_updates self w))
        ++ [Log INFO "Skipping update check - too soon since last check"])).
Proof.
  intros Howner Hrepo Hdue Hfetch Hdisk Hpos Hrange.
  pose proof (completed_check_stamps self w d rest Howner Hrepo Hdue Hfetch
                Hdisk) as Hstamp.
  destruct (check_for_updates_footprint self w)
    as [r [added [_ [_ [_ [[_ [Hnow _]] _]]]]]].
  apply (check_for_updates_too_soon self _ (now w)
           (Some (current_version self)) Howner Hrepo Hstamp).
  - rewrite Z.abs_eq; [exact Hrange|].
    apply Z.div_pos; [exact Hpos|reflexivity].
  - rewrite Hnow, Z.sub_diag.
    apply Z.mul_nonneg_nonneg; [|discriminate].
    apply Z.mul_nonneg_nonneg; [exact Hpos|discriminate].
Qed.

Lemma second_check_in_a_row_is_skipped_witness :
  check_for_updates (sample_checker "1.0.0")
    (snd (check_for_updates (sample_checker "1.0.0")
            (sample_world false (FetchOk releases_with_older_first))))
  = (Ok None,
     with_trace
       (snd (check_for_updates (sample_checker "1.0.0")
               (sample_world false (FetchOk releases_with_older_first))))
       (trace
          (snd (check_for_updates (sample_checker "1.0.0")
                  (sample_world false (FetchOk releases_with_older_first))))
        ++ [Log INFO "Skipping update check - too soon since last check"])).
Proof.
  apply (second_check_in_a_row_is_skipped (sample_checker "1.0.0")
           (sample_world false (FetchOk releases_with_older_first))
           (stable "v1.0.0") [stable "v2.0.0"]);
    try reflexivity; vm_compute; discriminate.
Defined.

(** X10.  A failed fetch does not use up the check: the check returns
    [None] and is still due afterwards, so that the next call sends the
    request again. *)
Theorem failed_fetch_leaves_check_due
  (self : GitHubVersionChecker) (w : World) (reason : string) :
  goes_ahead self w = true ->
  github w (releases_url (settings self)) (authorization (settings self))
  = FetchFailed reason ->
  fst (check_for_updates self w) = Ok None
  /\ goes_ahead self (snd (check_for_updates self w)) = true.
Proof.
  intros Hgo Hfetch. unfold goes_ahead in *.
  apply andb_true_iff in Hgo. destruct Hgo as [Hcfg Hdue].
  apply negb_true_iff, orb_false_iff in Hcfg. destruct Hcfg as [Howner Hrepo].
  rewrite Howner, Hrepo. cbn [orb negb andb].
  destruct (should_check_trace self w) as [due [extra [Hs _]]].
  rewrite Hs in Hdue. cbn [fst] in Hdue. subst due.
  rewrite (check_for_updates_due self w _ Howner Hrepo Hs), Hfetch.
  split; [reflexivity|]. cbn [snd].
  rewrite (should_check_depends self w (with_trace w _) eq_refl eq_refl).
  now rewrite Hs.
Qed.

Lemma failed_fetch_leaves_check_due_witness :
  fst (check_for_updates (sample_checker "1.0.0")
         (sample_world true (FetchFailed "timed out")))
  = Ok None
  /\ goes_ahead (sample_checker "1.0.0")
       (snd (check_for_updates (sample_checker "1.0.0")
               (sample_world true (FetchFailed "timed out"))))
     = true.
Proof.
  apply (failed_fetch_leaves_check_due (sample_checker "1.0.0")
           (sample_world true (FetchFailed "timed out")) "timed out");
    reflexivity.
Defined.

(** X11.  The cadence file round trip: after [_update_last_check_time] has
    written the stamp at one instant, [_should_check_for_updates] at a
    later (or earlier) instant answers [True] exactly when more than the
    check interval lies between the two. *)
Theorem recorded_check_is_due_after_interval
  (self : GitHubVersionChecker) (w : World) (later : Z) :
  disk_writable w = true ->
  Z.abs (check_interval_hours (settings self) / 24) <= 999999999 ->
  fst (_should_check_for_updates self
         (at_time (snd (_update_last_check_time self w)) later))
  = Ok (later - now w
        >? check_interval_hours (settings self) * 3600 * 1000000).
Proof.
  intros Hdisk Hrange.
  rewrite update_last_check_time_closed_form, Hdisk. cbn [snd].
  now rewrite (should_check_with_timestamp self
                 (at_time (with_last_check_file w (stamp self w)) later)
                 (now w) (Some (current_version self)) eq_refl Hrange).
Qed.

Lemma recorded_check_is_due_after_interval_witness :
  fst (_should_check_for_updates (sample_checker "1.0.0")
         (at_time
            (snd (_update_last_check_time (sample_checker "1.0.0")
                    (sample_world false (FetchOk []))))
            (sample_now + 24 * 3600 * 1000000)))
  = Ok false.
Proof.
  apply (recorded_check_is_due_after_interval (sample_checker "1.0.0")
           (sample_world false (FetchOk []))
           (sample_now + 24 * 3600 * 1000000)).
  - reflexivity.
  - vm_compute. discriminate.
Defined.

(** ** Tags and versions *)

Lemma lstrip_decomposes (c : ascii) (s : string) :
  exists n : nat,
    s = replicate c n ++ Py.lstrip c s
    /\ String.prefix (String c "") (Py.lstrip c s) = false.
Proof.
  induction s as [|c' s IH].
  - now exists O.
  - simpl. destruct (Ascii.eqb c' c) eqn:E.
    + apply Ascii.eqb_eq in E. subst c'.
      destruct IH as [n [Hs Hp]]. exists (S n). simpl. now rewrite <- Hs.
    + exists O. split; [reflexivity|]. simpl.
      destruct (ascii_dec c c') as [->|]; [|reflexivity].
      now rewrite Ascii.eqb_refl in E.
Qed.

(** X12.  The version of a parsed release is its tag without all of its
    leading "v"s: the tag is some number of "v"s followed by the version,
    and the version does not start with "v".  (A tag "vv2" gives "2", a
    tag "version-2" gives "ersion-2", a missing tag the empty version.) *)
Theorem parsed_version_is_tag_without_leading_v (d : release_data) :
  exists n : nat,
    tag_name (_parse_release_info d)
    = replicate "v" n ++ version (_parse_release_info d)
    /\ String.prefix "v" (version (_parse_release_info d)) = false.
Proof. apply (lstrip_decomposes "v" (get (rd_tag_name d) "")). Qed.

(** ** Skipping and notifying *)

Section Notifying.

Variable r : ReleaseInfo.

Lemma load_skipped_versions_world (w : World) :
  snd (load_skipped_versions w) = w.
Proof.
  unfold load_skipped_versions. now destruct (skip_file w) as [[|j]|].
Qed.

(** [_handle_new_version] with the GUI toolkit, on a stored list. *)
Lemma handle_new_version_on_list (w : World) (items : list json) :
  PYQT_AVAILABLE w = true ->
  fst (load_skipped_versions w) = Ok (JArray items) ->
  _handle_new_version r w
  = (Ok tt,
     with_trace w
       (trace w
        ++ [Log INFO ("New version notification: " ++ version r);
            if existsb (json_eq_str (version r)) items
            then Log INFO ("Skipping notification for version " ++ version r)
            else DialogExec r])).
Proof.
  intros Hgui Hload.
  unfold _handle_new_version, logger_info, pyqt_available, record, lift.
  cbn [bind ret M_monad PYQT_AVAILABLE with_trace trace].
  rewrite Hgui. cbn [negb].
  pose proof (load_skipped_versions_with_trace w
                (trace w ++ [Log INFO ("New version notification: "
                                       ++ version r)])) as Hl.
  rewrite Hload in Hl.
  pose proof (load_skipped_versions_world
                (with_trace w
                   (trace w ++ [Log INFO ("New version notification: "
                                          ++ version r)]))) as Hw.
  destruct (load_skipped_versions (with_trace w _)) as [res w'].
  cbn [fst snd] in Hl, Hw. subst res w'. cbn [py_in].
  destruct (existsb (json_eq_str (version r)) items);
    cbn [with_trace trace]; now rewrite <- app_assoc.
Qed.

End Notifying.

(** X13.  Skip, then notify: once [skip_version] has stored the version of
    a release (stored list, writable directory), [_handle_new_version]
    with the GUI toolkit opens no dialog for that release; it logs that
    the notification is skipped. *)
Theorem skipped_release_is_not_shown_again
  (r : ReleaseInfo) (w : World) (items : list json) :
  PYQT_AVAILABLE w = true ->
  fst (load_skipped_versions w) = Ok (JArray items) ->
  disk_writable w = true ->
  _handle_new_version r (snd (skip_version r w))
  = (Ok tt,
     with_trace (snd (skip_version r w))
       (trace (snd (skip_version r w))
        ++ [Log INFO ("New version notification: " ++ version r);
            Log INFO ("Skipping notification for version " ++ version r)])).
Proof.
  intros Hgui Hload Hdisk.
  rewrite (skip_version_on_list r w items Hload), Hdisk.
  destruct (existsb (json_eq_str (version r)) items) eqn:Hlisted; cbn [snd].
  - rewrite (handle_new_version_on_list r
               (with_trace w (trace w ++ [DialogAccept])) items Hgui).
    + now rewrite Hlisted.
    + now rewrite load_skipped_versions_with_trace.
  - rewrite (handle_new_version_on_list r
               (with_trace
                  (with_skip_file w
                     (SkJson (JArray (items ++ [JString (version r)]))))
                  (trace w ++ [DialogAccept]))
               (items ++ [JString (version r)]) Hgui eq_refl).
    rewrite existsb_app. cbn [existsb json_eq_str].
    now rewrite String.eqb_refl, orb_true_r.
Qed.

Lemma skipped_release_is_not_shown_again_witness :
  trace
    (snd (_handle_new_version (_parse_release_info (stable "v1.2.0"))
            (snd (skip_version (_parse_release_info (stable "v1.2.0"))
                    (world_with_skip_list true [JString "1.1.0"]
                       (FetchOk []))))))
  = [DialogAccept;
     Log INFO "New version notification: 1.2.0";
     Log INFO "Skipping notification for version 1.2.0"].
Proof.
  rewrite (skipped_release_is_not_shown_again
             (_parse_release_info (stable "v1.2.0"))
             (world_with_skip_list true [JString "1.1.0"] (FetchOk []))
             [JString "1.1.0"]); reflexivity.
Defined.

(** X14.  A skip that cannot be saved is lost without an error: in a
    directory that is not writable [skip_version] raises nothing and
    closes the dialog, and the next [_handle_new_version] for the same
    release opens the dialog again. *)
Theorem unsaved_skip_is_shown_again
  (r : ReleaseInfo) (w : World) (items : list json) :
  PYQT_AVAILABLE w = true ->
  fst (load_skipped_versions w) = Ok (JArray items) ->
  existsb (json_eq_str (version r)) items = false ->
  disk_writable w = false ->
  skip_version r w
  = (Ok tt,
     with_trace w
       (trace w
        ++ [LogExc ERROR "Error saving skipped versions: " OSError;
            DialogAccept]))
  /\ _handle_new_version r (snd (skip_version r w))
     = (Ok tt,
        with_trace w
          (trace w
           ++ [LogExc ERROR "Error saving skipped versions: " OSError;
               DialogAccept;
               Log INFO ("New version notification: " ++ version r);
               DialogExec r])).
Proof.
  intros Hgui Hload Hnew Hdisk.
  rewrite (skip_version_on_list r w items Hload), Hnew, Hdisk.
  split; [reflexivity|]. cbn [snd].
  rewrite (handle_new_version_on_list r
             (with_trace w
                (trace w
                 ++ [LogExc ERROR "Error saving skipped versions: " OSError;
                     DialogAccept]))
             items Hgui).
  - rewrite Hnew. cbn [with_trace trace]. now rewrite <- app_assoc.
  - now rewrite load_skipped_versions_with_trace.
Qed.

Lemma unsaved_skip_is_shown_again_witness :
  fst (skip_version (_parse_release_info (stable "v1.2.0")) read_only_world)
  = Ok tt.
Proof.
  exact (f_equal fst
           (proj1 (unsaved_skip_is_shown_again
                     (_parse_release_info (stable "v1.2.0")) read_only_world
                     [] eq_refl eq_refl eq_refl eq_refl))).
Defined.

(** X15.  [skip_version] never overwrites a skip file that holds JSON other
    than an array: the file stays as it is, the call returns normally only
    when the membership test itself succeeds (the version is a key of the
    object or a substring of the string), and otherwise raises
    [TypeError] or [AttributeError] before the dialog is closed. *)
Theorem skip_version_keeps_foreign_file
  (r : ReleaseInfo) (w : World) (j : json) :
  skip_file w = Some (SkJson j) ->
  is_array j = false ->
  skip_file (snd (skip_version r w)) = skip_file w
  /\ (fst (skip_version r w) = Ok tt <-> py_in (version r) j = Ok true)
  /\ (fst (skip_version r w) = Ok tt
      \/ (snd (skip_version r w) = w
          /\ (fst (skip_version r w) = Raise TypeError
              \/ fst (skip_version r w) = Raise AttributeError))).
Proof.
  intros Hfile Harr.
  assert (Hl : load_skipped_versions w = (Ok j, w))
    by (unfold load_skipped_versions; now rewrite Hfile).
  unfold skip_version, lift. cbn [bind M_monad]. rewrite Hl.
  destruct j as [| b | lit | s | items | members]; try discriminate Harr;
    cbn [py_in].
  1-3: (split; [reflexivity|]; split;
        [split; discriminate|right; split; [reflexivity|now left]]).
  - destruct (substring_of (version r) s); cbn [negb py_append fst snd];
      (split; [reflexivity|]);
      (split; [split; (reflexivity || discriminate)|]);
      [now left|right; split; [reflexivity|now right]].
  - destruct (existsb (String.eqb (version r)) (map fst members));
      cbn [negb py_append fst snd];
      (split; [reflexivity|]);
      (split; [split; (reflexivity || discriminate)|]);
      [now left|right; split; [reflexivity|now right]].
Qed.

Lemma skip_version_keeps_foreign_file_witness :
  skip_file
    (snd (skip_version (_parse_release_info (stable "v1.2.0"))
            (replace_skip_file (sample_world true (FetchOk []))
               (Some (SkJson (JObject [("1.1.0", JBool true)]))))))
  = Some (SkJson (JObject [("1.1.0", JBool true)])).
Proof.
  exact (proj1 (skip_version_keeps_foreign_file
                  (_parse_release_info (stable "v1.2.0"))
                  (replace_skip_file (sample_world true (FetchOk []))
                     (Some (SkJson (JObject [("1.1.0", JBool true)]))))
                  (JObject [("1.1.0", JBool true)]) eq_refl eq_refl)).
Defined.


(** ** The checker thread *)


(** X18.  With the GUI toolkit and no repository owner or name, [run]
    emits the error signal and then reports success: the log line, then
    [error_occurred("Repository configuration missing")], then
    [check_completed(True, "No updates available")]. *)
Theorem run_without_repository_reports_success
  (str : exn -> string) (self : GitHubVersionChecker) (w : World) :
  PYQT_AVAILABLE w = true ->
  repository_owner (settings self) = ""
  \/ repository_name (settings self) = "" ->
  run str self w
  = (Ok tt,
     with_trace w
       (trace w
        ++ [Log ERROR "Repository owner and name must be configured";
            Emit (error_occurred "Repository configuration missing");
            Emit (check_completed true "No updates available")])).
Proof.
  intros Hgui Hcfg.
  unfold run, pyqt_available. cbn [bind M_monad]. rewrite Hgui. cbn [negb].
  unfold try_except. cbn [bind M_monad].
  rewrite (check_for_updates_without_repository_form self w Hcfg), Hgui.
  unfold emit, record. cbn [with_trace trace]. now rewrite <- app_assoc.
Qed.

Lemma run_without_repository_reports_success_witness :
  run (fun _ => "error") unconfigured_checker
    (sample_world true (FetchOk [stable "v1.1.0"]))
  = (Ok tt,
     with_trace (sample_world true (FetchOk [stable "v1.1.0"]))
       [Log ERROR "Repository owner and name must be configured";
        Emit (error_occurred "Repository configuration missing");
        Emit (check_completed true "No updates available")]).
Proof.
  apply (run_without_repository_reports_success (fun _ => "error")
           unconfigured_checker
           (sample_world true (FetchOk [stable "v1.1.0"]))).
  - reflexivity.
  - left. reflexivity.
Defined.

(** ** The current version *)

Section CurrentVersion.

Lemma chars_of_append (a b : string) :
  list_ascii_of_string (a ++ b)
  = (list_ascii_of_string a ++ list_ascii_of_string b)%list.
Proof. induction a as [|c a IH]; simpl; [reflexivity|now rewrite IH]. Qed.

Lemma drop_spaces_blank (l : list ascii) :
  forallb isspace l = true -> drop_spaces l = [].
Proof.
  induction l as [|c l IH]; simpl; trivial.
  destruct (isspace c); simpl; [exact IH|discriminate].
Qed.

Lemma drop_spaces_lead (lead l : list ascii) :
  forallb isspace lead = true -> drop_spaces (lead ++ l) = drop_spaces l.
Proof.
  induction lead as [|c lead IH]; simpl; trivial.
  destruct (isspace c); simpl; [exact IH|discriminate].
Qed.

Lemma drop_spaces_trail (l trail : list ascii) :
  forallb isspace trail = true ->
  drop_spaces (l ++ trail)
  = match drop_spaces l with
    | [] => []
    | c :: rest => ((c :: rest) ++ trail)%list
    end.
Proof.
  intros Htrail. induction l as [|c l IH]; simpl.
  - now apply drop_spaces_blank.
  - destruct (isspace c); [exact IH|reflexivity].
Qed.

Lemma forallb_rev (f : ascii -> bool) (l : list ascii) :
  forallb f (rev l) = forallb f l.
Proof.
  induction l as [|c l IH]; simpl; trivial.
  rewrite forallb_app, IH. simpl. rewrite andb_true_r. apply andb_comm.
Qed.

(** White space around the text does not change what [strip] returns. *)
Lemma strip_surrounded (lead text trail : string) :
  forallb isspace (list_ascii_of_string lead) = true ->
  forallb isspace (list_ascii_of_string trail) = true ->
  strip (lead ++ text ++ trail) = strip text.
Proof.
  intros Hlead Htrail. unfold strip. f_equal. f_equal.
  rewrite !chars_of_append, (drop_spaces_lead _ _ Hlead),
    (drop_spaces_trail _ _ Htrail).
  destruct (drop_spaces (list_ascii_of_string text)) as [|c rest];
    [reflexivity|].
  rewrite rev_app_distr. apply drop_spaces_lead. now rewrite forallb_rev.
Qed.

Lemma strip_blank (text : string) :
  forallb isspace (list_ascii_of_string text) = true -> strip text = "".
Proof. intros H. unfold strip. now rewrite (drop_spaces_blank _ H). Qed.

End CurrentVersion.

(** X19.  White space around the text of [version.txt], a final newline
    for one, makes no difference to the current version; and once
    [version.txt] exists, [package.json] is not consulted. *)
Theorem version_txt_whitespace_is_ignored
  (lead text trail : string) (package_json other : option json_file)
  (w : World) :
  forallb isspace (list_ascii_of_string lead) = true ->
  forallb isspace (list_ascii_of_string trail) = true ->
  _get_current_version (Some (Text (lead ++ text ++ trail))) package_json w
  = _get_current_version (Some (Text text)) other w.
Proof.
  intros Hlead Htrail. unfold _get_current_version, try_except, lift.
  cbn [bind ret M_monad read_text].
  now rewrite (strip_surrounded lead text trail Hlead Htrail).
Qed.

Lemma version_txt_whitespace_is_ignored_witness :
  _get_current_version (Some (Text (" " ++ "1.2.0" ++ String "010" "")))
    (Some (JsonDoc (JObject [("version", JString "9.9.9")])))
    (sample_world false (FetchOk []))
  = (Ok (JString "1.2.0"), sample_world false (FetchOk [])).
Proof.
  rewrite (version_txt_whitespace_is_ignored " " "1.2.0" (String "010" "")
             (Some (JsonDoc (JObject [("version", JString "9.9.9")]))) None
             (sample_world false (FetchOk [])));
    reflexivity.
Defined.

(** X20.  [_get_current_version] raises nothing and falls back to "1.0.0":
    it returns the stripped text of a readable [version.txt]; "1.0.0" for
    an unreadable [version.txt], whatever [package.json] holds; without
    [version.txt], the [version] of a [package.json] that is a JSON
    object, and "1.0.0" when that key or the file is missing, the file is
    unreadable or holds no object.  Only those last two failures and the
    unreadable [version.txt] are logged. *)
Theorem get_current_version_falls_back
  (version_txt : option text_file) (package_json : option json_file)
  (w : World) :
  fst (_get_current_version version_txt package_json w)
  = Ok match version_txt with
       | Some (Text text) => JString (strip text)
       | Some TextUnreadable => JString "1.0.0"
       | None =>
           match package_json with
           | Some (JsonDoc (JObject members)) =>
               get (dict_lookup "version" members) (JString "1.0.0")
           | _ => JString "1.0.0"
           end
       end
  /\ (snd (_get_current_version version_txt package_json w) = w
      \/ exists e : exn,
           snd (_get_current_version version_txt package_json w)
           = with_trace w
               (trace w
                ++ [LogExc WARNING "Could not determine current version: "
                      e])).
Proof.
  unfold _get_current_version, try_except, lift, logger_warning_exc, record.
  destruct version_txt as [[|text]|]; cbn [bind ret M_monad read_text fst snd].
  - split; [reflexivity|right; now exists OSError].
  - split; [reflexivity|now left].
  - destruct package_json as [[|[| b | lit | s | items | members]]|];
      cbn [bind ret M_monad json_load json_get fst snd];
      (split; [reflexivity|]);
      first [ now left | right; eexists; reflexivity ].
Qed.

(** X21.  A [version.txt] of white space only gives the empty current
    version, and a checker with the empty current version reports every
    release that passes the filter and has a non-empty version. *)
Theorem blank_version_file_makes_every_release_newer
  (text : string) (package_json : option json_file) (w : World)
  (self : GitHubVersionChecker) (r : ReleaseInfo) :
  forallb isspace (list_ascii_of_string text) = true ->
  current_version self = "" ->
  fst (_get_current_version (Some (Text text)) package_json w)
  = Ok (JString (current_version self))
  /\ notifiable self r
     = negb (skipped (settings self) r) && negb (Py.falsy (version r)).
Proof.
  intros Hblank Hcur. split.
  - unfold _get_current_version, try_except, lift.
    cbn [bind ret M_monad read_text fst].
    now rewrite (strip_blank text Hblank), Hcur.
  - unfold notifiable, newer. rewrite Hcur. f_equal.
    rewrite compare_closed_form, version_tuple_empty.
    now destruct (version r).
Qed.

Lemma blank_version_file_makes_every_release_newer_witness :
  fst (_get_current_version (Some (Text (String "010" ""))) None
         (sample_world false (FetchOk [])))
  = Ok (JString (current_version (sample_checker "")))
  /\ notifiable (sample_checker "") (_parse_release_info (stable "v0.0.1"))
     = negb (skipped (settings (sample_checker ""))
               (_parse_release_info (stable "v0.0.1")))
       && negb (Py.falsy (version (_parse_release_info (stable "v0.0.1")))).
Proof.
  apply (blank_version_file_makes_every_release_newer (String "010" "") None
           (sample_world false (FetchOk [])) (sample_checker "")
           (_parse_release_info (stable "v0.0.1")));
    reflexivity.
Defined.

(** ** Settings *)

Section SettingsFile.

Lemma raw_settings_eta (s : RawSettings) :
  {| raw_check_interval_hours := raw_check_interval_hours s;
     raw_notify_on_prerelease := raw_notify_on_prerelease s;
     raw_notify_on_draft := raw_notify_on_draft s;
     raw_auto_download := raw_auto_download s;
     raw_show_changelog := raw_show_changelog s;
     raw_github_token := raw_github_token s;
     raw_repository_owner := raw_repository_owner s;
     raw_repository_name := raw_repository_name s |} = s.
Proof. now destruct s. Qed.

(** The document [save_settings_to_file] writes is accepted back. *)
Lemma settings_document_accepted (s : RawSettings) :
  NotificationSettings_from (settings_document s) = Ok s.
Proof.
  unfold NotificationSettings_from, settings_document.
  cbn. now rewrite raw_settings_eta.
Qed.

(** [load_settings_from_file] raises nothing and touches the log only. *)
Lemma load_settings_shape (file : option json_file) (w : World) :
  exists (s : RawSettings) (t : list event),
    load_settings_from_file file w = (Ok s, with_trace w t).
Proof.
  unfold load_settings_from_file, try_except, lift, logger_error_exc, record.
  destruct file as [[|j]|]; cbn [bind ret M_monad json_load].
  - eexists; eexists; reflexivity.
  - destruct (NotificationSettings_from j) as [s|e];
      cbn [bind ret M_monad].
    + exists s, (trace w). now rewrite with_trace_same.
    + eexists; eexists; reflexivity.
  - exists create_default_settings, (trace w). now rewrite with_trace_same.
Qed.

End SettingsFile.

(** X22.  Settings round trip: what [save_settings_to_file] writes in a
    writable directory, [load_settings_from_file] reads back as the very
    same settings, whatever values the eight attributes hold, and without
    logging anything. *)
Theorem saved_settings_load_back
  (s : RawSettings) (file : option json_file) (w : World) :
  disk_writable w = true ->
  exists saved : json_file,
    save_settings_to_file s file w = (Ok (Some saved), w)
    /\ load_settings_from_file (Some saved) w = (Ok s, w).
Proof.
  intros Hdisk. exists (JsonDoc (settings_document s)). split.
  - unfold save_settings_to_file, try_except. now rewrite Hdisk.
  - unfold load_settings_from_file, try_except, lift.
    cbn [bind ret M_monad json_load].
    now rewrite settings_document_accepted.
Qed.

Lemma saved_settings_load_back_witness :
  exists saved : json_file,
    save_settings_to_file create_default_settings None
      (sample_world false (FetchOk []))
    = (Ok (Some saved), sample_world false (FetchOk []))
    /\ load_settings_from_file (Some saved) (sample_world false (FetchOk []))
       = (Ok create_default_settings, sample_world false (FetchOk [])).
Proof.
  apply (saved_settings_load_back create_default_settings None
           (sample_world false (FetchOk []))).
  reflexivity.
Defined.

(** X23.  One unknown key discards the whole settings file: when the JSON
    object has a key that is no field of [NotificationSettings],
    [load_settings_from_file] logs a [TypeError] and returns the default
    settings, with none of the values of the file. *)
Theorem unknown_key_discards_settings_file
  (members : list (string * json)) (w : World) :
  existsb (fun kv => negb (is_field (fst kv))) members = true ->
  load_settings_from_file (Some (JsonDoc (JObject members))) w
  = (Ok create_default_settings,
     with_trace w
       (trace w ++ [LogExc ERROR "Error loading settings: " TypeError])).
Proof.
  intros Hkey.
  assert (Hall : forallb (fun kv => is_field (fst kv)) members = false).
  { apply existsb_exists in Hkey. destruct Hkey as [kv [Hin Hkv]].
    destruct (forallb (fun kv => is_field (fst kv)) members) eqn:E;
      [|reflexivity].
    rewrite forallb_forall in E. rewrite (E kv Hin) in Hkv. discriminate. }
  unfold load_settings_from_file, try_except, lift, logger_error_exc, record.
  cbn [bind ret M_monad json_load NotificationSettings_from].
  now rewrite Hall.
Qed.

Lemma unknown_key_discards_settings_file_witness :
  load_settings_from_file
    (Some (JsonDoc (JObject [("repository_owner", JString "octo");
                             ("repository_name", JString "app");
                             ("interval", JNumber "12")])))
    (sample_world false (FetchOk []))
  = (Ok create_default_settings,
     with_trace (sample_world false (FetchOk []))
       [LogExc ERROR "Error loading settings: " TypeError]).
Proof.
  apply (unknown_key_discards_settings_file
           [("repository_owner", JString "octo");
            ("repository_name", JString "app");
            ("interval", JNumber "12")]
           (sample_world false (FetchOk []))).
  reflexivity.
Defined.

(** X24.  [_load_settings] raises nothing and never leaves the repository
    owner unset: whatever the [config] directory holds, the owner of the
    settings it leaves is truthy and is not "your-username". *)
Theorem load_settings_always_names_an_owner
  (str : exn -> string) (number_is_zero : string -> bool)
  (config_dir_exists : bool) (file : option json_file) (w : World) :
  exists s : RawSettings,
    fst (_load_settings str number_is_zero config_dir_exists file w) = Ok s
    /\ json_falsy number_is_zero (raw_repository_owner s) = false
    /\ json_eq_str "your-username" (raw_repository_owner s) = false.
Proof.
  unfold _load_settings, try_except. cbn [bind M_monad].
  assert (H : exists (s : RawSettings) (t : list event),
             (if config_dir_exists then load_settings_from_file file
              else ret create_default_settings) w = (Ok s, with_trace w t)).
  { destruct config_dir_exists; [apply load_settings_shape|].
    exists create_default_settings, (trace w). cbn [ret M_monad].
    now rewrite with_trace_same. }
  destruct H as [s [t ->]].
  destruct (json_falsy number_is_zero (raw_repository_owner s)
            || json_eq_str "your-username" (raw_repository_owner s)) eqn:E;
    cbn [ret M_monad fst].
  - eexists. split; [reflexivity|]. now split.
  - apply orb_false_iff in E. destruct E as [E1 E2].
    exists s. now repeat split.
Qed.

(** X25.  When the loaded owner is unset or "your-username",
    [_load_settings] replaces the repository name along with the owner:
    a name configured in the file is overwritten by
    "candor-coding-platform", and the other six settings are kept. *)
Theorem load_settings_overwrites_configured_name
  (str : exn -> string) (number_is_zero : string -> bool)
  (members : list (string * json)) (w : World) :
  forallb (fun kv => is_field (fst kv)) members = true ->
  dict_lookup "repository_owner" members = None ->
  exists loaded : RawSettings,
    NotificationSettings_from (JObject members) = Ok loaded
    /\ _load_settings str number_is_zero true
         (Some (JsonDoc (JObject members))) w
       = (Ok (set_repository loaded (JString "candor-cdp")
                (JString "candor-coding-platform")),
          w).
Proof.
  intros Hall Hnone.
  unfold _load_settings, try_except, load_settings_from_file, lift.
  cbn [bind ret M_monad json_load NotificationSettings_from].
  rewrite Hall. cbn [bind ret M_monad raw_repository_owner].
  rewrite Hnone. cbn [get json_falsy Py.falsy orb ret M_monad].
  eexists. split; reflexivity.
Qed.

Lemma load_settings_overwrites_configured_name_witness :
  fst (_load_settings (fun _ => "error") (fun _ => false) true
         (Some (JsonDoc (JObject [("repository_name", JString "mine");
                                  ("check_interval_hours", JNumber "12")])))
         (sample_world false (FetchOk [])))
  = Ok {| raw_check_interval_hours := JNumber "12";
          raw_notify_on_prerelease := JBool false;
          raw_notify_on_draft := JBool false;
          raw_auto_download := JBool false;
          raw_show_changelog := JBool true;
          raw_github_token := JNull;
          raw_repository_owner := JString "candor-cdp";
          raw_repository_name := JString "candor-coding-platform" |}.
Proof.
  destruct (load_settings_overwrites_configured_name (fun _ => "error")
              (fun _ => false)
              [("repository_name", JString "mine");
               ("check_interval_hours", JNumber "12")]
              (sample_world false (FetchOk [])) eq_refl eq_refl)
    as [loaded [Hloaded Hrun]].
  rewrite Hrun. cbn [fst]. injection Hloaded as <-. reflexivity.
Defined.
